(** * article_generator.py: the SQL row builder and the batch loop

    A shallow embedding of [ArticleGenerator] (src/article_generator.py) and
    the properties its specification states about it.

    Python values are modelled as the code meets them: a [str] is a list of
    Unicode code points, the object returned by [json.loads] is a dynamically
    typed value, and an exception is an explicit [Raise] result.  What the
    module uses and does not define is taken as a parameter, in the record
    [world]: the collaborator [get_llm_output], the decoder [json.loads],
    the built-in [hash] and the printing of lists and dictionaries.  The
    [print] calls only write progress lines and are left out. *)

From Stdlib Require Import String Ascii Decimal DecimalString.
From Stdlib Require Import List ZArith NArith Lia Bool.
Import ListNotations.

Local Open Scope list_scope.

(** ** Strings *)

(** A Python [str]: a sequence of code points. *)
Definition char := N.
Definition pystr := list char.

(** An ASCII literal of the source, as a [pystr]. *)
Definition lit (s : string) : pystr :=
  map N_of_ascii (list_ascii_of_string s).
Arguments lit s%_string.

Definition quote : char := 39%N.      (* ' *)
Definition dquote : char := 34%N.     (* the double quote *)
Definition newline : char := 10%N.    (* \n *)

Fixpoint str_eqb (a b : pystr) : bool :=
  match a, b with
  | [], [] => true
  | x :: a', y :: b' => N.eqb x y && str_eqb a' b'
  | _, _ => false
  end.

(** [s.startswith(p)] *)
Fixpoint startswith (p s : pystr) : bool :=
  match p, s with
  | [], _ => true
  | x :: p', y :: s' => N.eqb x y && startswith p' s'
  | _ :: _, [] => false
  end.

(** [p in s] for two strings: [p] occurs in [s] as a substring. *)
Fixpoint substring_of (p s : pystr) : bool :=
  startswith p s ||
  match s with
  | [] => false
  | _ :: s' => substring_of p s'
  end.

(** [sep.join(parts)] *)
Fixpoint join (sep : pystr) (parts : list pystr) : pystr :=
  match parts with
  | [] => []
  | [p] => p
  | p :: rest => p ++ sep ++ join sep rest
  end.

(** [s * n] *)
Fixpoint str_mul (s : pystr) (n : nat) : pystr :=
  match n with
  | O => []
  | S k => s ++ str_mul s k
  end.

(** [s.replace(old, new)] for a non-empty [old]: the occurrences of [old]
    are found from the left and do not overlap.  [skip] counts the code
    points of a matched occurrence that are still to be passed over. *)
Fixpoint replace_from (old new s : pystr) (skip : nat) : pystr :=
  match s with
  | [] => []
  | c :: rest =>
      match skip with
      | S k => replace_from old new rest k
      | O =>
          if startswith old s
          then new ++ replace_from old new rest (length old - 1)
          else c :: replace_from old new rest 0
      end
  end.

Definition str_replace (old new s : pystr) : pystr :=
  replace_from old new s 0.

(** [str(n)] and [f"{n}"] for an [int]. *)
Definition decimal (z : Z) : pystr :=
  lit (NilZero.string_of_int (Z.to_int z)).

(** ** [escape_sql_string] *)

Definition escape_sql_string (text : pystr) : pystr :=
  str_replace (lit "'") (lit "''") text.

(** The Escaper in the words of the specification: every single quote
    becomes two, every other code point is kept. *)
Definition double_quote (c : char) : pystr :=
  if N.eqb c quote then [quote; quote] else [c].

Definition doubled (text : pystr) : pystr := flat_map double_quote text.

Definition count_quotes (s : pystr) : nat := count_occ N.eq_dec s quote.

Definition without_quotes (s : pystr) : pystr :=
  filter (fun c => negb (N.eqb c quote)) s.

(** ** Exceptions

    A call either returns a value or raises.  Only the exceptions the code
    can meet are listed; all of them are subclasses of [Exception], which is
    what the handler of [generate_article_content] catches. *)

Inductive exn :=
| KeyError (key : pystr)
| TypeError
| AttributeError
| IndexError
| ValueError (msg : pystr)
| JSONDecodeError
| RuntimeError (msg : pystr).

Inductive result (A : Type) :=
| Ok (a : A)
| Raise (e : exn).
Arguments Ok {A} a.
Arguments Raise {A} e.

Definition bind {A B : Type} (r : result A) (k : A -> result B) : result B :=
  match r with
  | Ok a => k a
  | Raise e => Raise e
  end.

Notation "'let*' x ':=' r 'in' k" := (bind r (fun x => k))
  (at level 10, x name, r at level 100, k at level 200).

Definition succeeds {A : Type} (r : result A) : bool :=
  match r with
  | Ok _ => true
  | Raise _ => false
  end.

(** ** Python values

    What [json.loads] can return, and so what [article_data] can be.  A
    [float] is kept as the text that printing it gives.  A [dict] is the list
    of its items in insertion order, with distinct keys. *)

#[local] Unset Elimination Schemes.
Inductive pyobj :=
| PyNone
| PyBool (b : bool)
| PyInt (z : Z)
| PyFloat (printed : pystr)
| PyStr (s : pystr)
| PyList (elems : list pyobj)
| PyDict (items : list (pystr * pyobj)).
#[local] Set Elimination Schemes.

Fixpoint dict_lookup {V : Type} (items : list (pystr * V)) (key : pystr)
  : option V :=
  match items with
  | [] => None
  | (k, v) :: rest => if str_eqb k key then Some v else dict_lookup rest key
  end.

Definition is_str (v : pyobj) (s : pystr) : bool :=
  match v with
  | PyStr t => str_eqb t s
  | _ => false
  end.

(** [key in container] *)
Definition py_in (key : pystr) (container : pyobj) : result bool :=
  match container with
  | PyDict items =>
      Ok (match dict_lookup items key with Some _ => true | None => false end)
  | PyList elems => Ok (existsb (fun v => is_str v key) elems)
  | PyStr s => Ok (substring_of key s)
  | PyNone | PyBool _ | PyInt _ | PyFloat _ => Raise TypeError
  end.

(** [container[key]] for a string [key] *)
Definition py_getitem (container : pyobj) (key : pystr) : result pyobj :=
  match container with
  | PyDict items =>
      match dict_lookup items key with
      | Some v => Ok v
      | None => Raise (KeyError key)
      end
  | _ => Raise TypeError
  end.

(** [container.get(key, default)]: only a [dict] has the method. *)
Definition py_get (container : pyobj) (key : pystr) (default : pyobj)
  : result pyobj :=
  match container with
  | PyDict items =>
      Ok (match dict_lookup items key with Some v => v | None => default end)
  | _ => Raise AttributeError
  end.

(** [l[i]] for an integer [i]; a negative index counts from the end. *)
Definition list_index {A : Type} (l : list A) (i : Z) : result A :=
  let n := Z.of_nat (List.length l) in
  let j := if (i <? 0)%Z then (i + n)%Z else i in
  if (0 <=? j)%Z && (j <? n)%Z then
    match nth_error l (Z.to_nat j) with
    | Some x => Ok x
    | None => Raise IndexError
    end
  else Raise IndexError.

Definition str_bool (b : bool) : pystr :=
  if b then lit "True" else lit "False".

(** [s.lower()], on the letters A to Z; it is applied to [str_bool] only. *)
Definition lower_char (c : char) : char :=
  if (65 <=? c)%N && (c <=? 90)%N then (c + 32)%N else c.

Definition str_lower (s : pystr) : pystr := map lower_char s.

(** ** The two substitutions on a fenced response *)

(** [\s] of a [str] pattern. *)
Definition is_space (c : char) : bool :=
  existsb (N.eqb c)
    [9; 10; 11; 12; 13; 28; 29; 30; 31; 32; 133; 160; 5760;
     8232; 8233; 8239; 8287; 12288]%N
  || ((8192 <=? c)%N && (c <=? 8202)%N).

Fixpoint lstrip_space (s : pystr) : pystr :=
  match s with
  | [] => []
  | c :: rest => if is_space c then lstrip_space rest else s
  end.

Definition drop_optional (c : char) (s : pystr) : pystr :=
  match s with
  | [] => []
  | x :: rest => if N.eqb x c then rest else s
  end.

(** [re.sub(r'^```json?\s*\n?', '', s)].  The pattern can only match at the
    start: three backquotes, [jso], an optional [n], the longest run of
    white space and an optional newline (never there after that run). *)
Definition sub_open_fence (s : pystr) : pystr :=
  if startswith (lit "```jso") s then
    drop_optional newline
      (lstrip_space (drop_optional 110%N (skipn 6 s)))
  else s.

(** Does [\n?```\s*$] match at the head of [s]?  It does when [s] is an
    optional newline, three backquotes and white space up to the end. *)
Definition close_fence_at (s : pystr) : bool :=
  let t := drop_optional newline s in
  startswith (lit "```") t && forallb is_space (skipn 3 t).

(** [re.sub(r'\n?```\s*$', '', s)]: the leftmost match runs to the end of
    the string and is removed. *)
Fixpoint sub_close_fence (s : pystr) : pystr :=
  if close_fence_at s then []
  else match s with
       | [] => []
       | c :: rest => c :: sub_close_fence rest
       end.

(** Lines 83 to 85. *)
Definition unfence (response_content : pystr) : pystr :=
  if startswith (lit "```") response_content
  then sub_close_fence (sub_open_fence response_content)
  else response_content.

(** ** The prompt (lines 41 to 76) *)

Definition prompt (topic : pystr) (tags : list pystr) : pystr :=
  join [newline] [
    lit "You are an expert technical writer specializing in Machine Learning and AI.";
    [];
    lit "Generate a comprehensive article about: " ++ [dquote] ++ topic ++ [dquote];
    [];
    lit "Tags: " ++ join (lit ", ") tags;
    [];
    lit "Please provide a JSON response with the following fields:";
    [];
    lit "1. " ++ [dquote] ++ lit "title" ++ [dquote] ++ lit ": An engaging, SEO-friendly title (50-60 characters)";
    lit "2. " ++ [dquote] ++ lit "content" ++ [dquote] ++ lit ": Comprehensive article which will describe the concept in very easy language along with mathematical equations to explain everything. This should be a technical document.";
    lit "The content should be around (1500-2500 words) formatted in HTML with:";
    lit "   - Multiple sections with <h2> and <h3> headings";
    lit "   - Paragraphs in <p> tags";
    lit "   - Code examples in <pre><code> blocks if relevant";
    lit "   - Lists using <ul>/<ol> and <li> tags";
    lit "   - Strong emphasis with <strong> tags for key concepts";
    lit "   - Make it technical but accessible";
    lit "   - Write mathematical equations properly which can be rendered properly in the article.";
    lit "   - add main main items. Don't make it a very big article. Make it concise and to the point.";
    lit "   ";
    lit "3. " ++ [dquote] ++ lit "excerpt" ++ [dquote] ++ lit ": A compelling 100-150 character preview that makes readers want to click";
    [];
    lit "4. " ++ [dquote] ++ lit "summary" ++ [dquote] ++ lit ": Exactly ~100 words explaining the core concept. Should be:";
    lit "   - Self-contained and comprehensive";
    lit "   - Not too technical but should be able to explain the concept in a way that is easy to understand";
    lit "   - Cover key points and applications";
    lit "   - Standalone explanation that doesn't require reading the full article";
    lit "   - The intent of this summary is to make user understand the concept in a very short and concise way and very quickly.";
    [];
    lit "5. " ++ [dquote] ++ lit "summary_title" ++ [dquote] ++ lit ": A short 2-5 word title for the concept (different from main title)";
    [];
    lit "6. " ++ [dquote] ++ lit "reading_time" ++ [dquote] ++ lit ": Estimated reading time in minutes (based on content length)";
    [];
    lit "Make the content authoritative, well-researched, and valuable for ML practitioners.";
    [];
    lit "Return ONLY valid JSON, no other text."
  ].

(** ** The generator *)

(** What the module uses and does not define.  [get_llm_output] takes the
    prompt and the model name and returns the response text or raises;
    [json_loads] is [json.loads]; [hash] is the built-in hash of a string,
    one function for the life of a process; [repr] prints a list or a dict. *)
Record world := {
  get_llm_output : pystr -> pystr -> result pystr;
  json_loads : pystr -> result pyobj;
  hash : pystr -> Z;
  repr : pyobj -> pystr
}.

(** [self] *)
Record ArticleGenerator := { model_name : pystr }.

(** One element of [topics]: [name] is indexed, the other keys are read with
    [get] and a default. *)
Record topic_request := {
  name : pystr;
  tags : option (list pystr);
  is_premium : option bool;
  views : option Z
}.

(** [topic_data.get(key, default)] *)
Definition get_or {A : Type} (field : option A) (default : A) : A :=
  match field with
  | Some x => x
  | None => default
  end.

Definition required_fields : list pystr :=
  [lit "title"; lit "content"; lit "excerpt"; lit "summary";
   lit "summary_title"; lit "reading_time"].

Definition default_images : list pystr :=
  [lit "https://images.pexels.com/photos/8439093/pexels-photo-8439093.jpeg";
   lit "https://images.pexels.com/photos/3861969/pexels-photo-3861969.jpeg";
   lit "https://images.pexels.com/photos/8386434/pexels-photo-8386434.jpeg";
   lit "https://images.pexels.com/photos/8438918/pexels-photo-8438918.jpeg";
   lit "https://images.pexels.com/photos/7516366/pexels-photo-7516366.jpeg"].

Definition sql_header : pystr :=
  lit "INSERT INTO articles (title, content, excerpt, summary, summary_title, featured_image, reading_time, tags, is_premium, views, created_by)"
  ++ [newline] ++ lit "VALUES" ++ [newline].

(** The dictionary of the [except] branch (lines 100 to 107). *)
Definition fallback (topic : pystr) : pyobj :=
  PyDict [
    (lit "title",
      PyStr (lit "Understanding " ++ topic ++ lit ": A Comprehensive Guide"));
    (lit "content",
      PyStr (lit "<p>This is a comprehensive guide about " ++ topic ++ lit ".</p>"));
    (lit "excerpt",
      PyStr (lit "Learn about " ++ topic ++ lit " in machine learning."));
    (lit "summary",
      PyStr (str_mul
        (topic ++ lit " is an important concept in machine learning. ") 10));
    (lit "summary_title", PyStr (firstn 30 topic));
    (lit "reading_time", PyInt 10)
  ].

(** The loop of lines 91 to 93. *)
Fixpoint validate (fields : list pystr) (article_data : pyobj) : result unit :=
  match fields with
  | [] => Ok tt
  | field :: rest =>
      let* present := py_in field article_data in
      if present then validate rest article_data
      else Raise (ValueError (lit "Missing required field: " ++ field))
  end.

(** [self.escape_sql_string(v)] for a value of any type: only a [str] has
    the [replace] method. *)
Definition call_escape (v : pyobj) : result pystr :=
  match v with
  | PyStr s => Ok (escape_sql_string s)
  | _ => Raise AttributeError
  end.

Section Generator.

Variable W : world.
Variable self : ArticleGenerator.

(** The body of the [try] (lines 80 to 95). *)
Definition try_generate (topic : pystr) (tags : list pystr) : result pyobj :=
  let* response_content :=
    get_llm_output W (prompt topic tags) (model_name self) in
  let response_content := unfence response_content in
  let* article_data := json_loads W response_content in
  let* _ := validate required_fields article_data in
  Ok article_data.

Definition generate_article_content (topic : pystr) (tags : list pystr)
  : pyobj :=
  match try_generate topic tags with
  | Ok article_data => article_data
  | Raise _ => fallback topic
  end.

Definition get_featured_image (topic : pystr) : result pystr :=
  list_index default_images
    (hash W topic mod Z.of_nat (List.length default_images))%Z.

(** A value inside an f-string. *)
Definition format_value (v : pyobj) : pystr :=
  match v with
  | PyNone => lit "None"
  | PyBool b => str_bool b
  | PyInt z => decimal z
  | PyFloat printed => printed
  | PyStr s => s
  | PyList _ | PyDict _ => repr W v
  end.

(** Lines 176 to 198 of [generate_sql_insert]: the row, from the record
    and the image. *)
Definition build_row (article_data : pyobj) (featured_image : pystr)
    (tags : list pystr) (is_premium : bool) (views : Z)
    (created_by : pystr) : result pystr :=
  let* v := py_getitem article_data (lit "title") in
  let* title := call_escape v in
  let* v := py_getitem article_data (lit "content") in
  let* content := call_escape v in
  let* v := py_get article_data (lit "excerpt") (PyStr []) in
  let* excerpt := call_escape v in
  let* v := py_get article_data (lit "summary") (PyStr []) in
  let* summary := call_escape v in
  let* v := py_get article_data (lit "summary_title") (PyStr []) in
  let* summary_title := call_escape v in
  let tags_str :=
    join (lit ", ") (map (fun tag => lit "'" ++ tag ++ lit "'") tags) in
  let* reading_time := py_get article_data (lit "reading_time") (PyInt 10) in
  Ok (lit "  (" ++ [newline]
      ++ lit "    '" ++ title ++ lit "'," ++ [newline]
      ++ lit "    '" ++ content ++ lit "'," ++ [newline]
      ++ lit "    '" ++ excerpt ++ lit "'," ++ [newline]
      ++ lit "    '" ++ summary ++ lit "'," ++ [newline]
      ++ lit "    '" ++ summary_title ++ lit "'," ++ [newline]
      ++ lit "    '" ++ featured_image ++ lit "'," ++ [newline]
      ++ lit "    " ++ format_value reading_time ++ lit "," ++ [newline]
      ++ lit "    ARRAY[" ++ tags_str ++ lit "]," ++ [newline]
      ++ lit "    " ++ str_lower (str_bool is_premium) ++ lit "," ++ [newline]
      ++ lit "    " ++ decimal views ++ lit "," ++ [newline]
      ++ lit "    '" ++ created_by ++ lit "'" ++ [newline]
      ++ lit "  )").

Definition generate_sql_insert (topic : pystr) (tags : list pystr)
    (is_premium : bool) (views : Z) (created_by : pystr) : result pystr :=
  let article_data := generate_article_content topic tags in
  let* featured_image := get_featured_image topic in
  build_row article_data featured_image tags is_premium views created_by.

(** The loop of [generate_batch_sql]: the rows, in the order of [topics]. *)
Fixpoint batch_inserts (topics : list topic_request) (created_by : pystr)
  : result (list pystr) :=
  match topics with
  | [] => Ok []
  | topic_data :: rest =>
      let* insert :=
        generate_sql_insert (name topic_data)
          (get_or (tags topic_data) [])
          (get_or (is_premium topic_data) false)
          (get_or (views topic_data) 0%Z)
          created_by in
      let* inserts := batch_inserts rest created_by in
      Ok (insert :: inserts)
  end.

Definition generate_batch_sql (topics : list topic_request)
    (created_by : pystr) : result pystr :=
  let* inserts := batch_inserts topics created_by in
  let sql_values := join (lit "," ++ [newline]) inserts in
  Ok (sql_header ++ sql_values ++ lit ";").

End Generator.

(** ** The output in the words of the specification *)

(** A text literal: single-quoted. *)
Definition sql_text (s : pystr) : pystr := lit "'" ++ s ++ lit "'".

(** An array literal of already rendered elements. *)
Definition sql_array (elems : list pystr) : pystr :=
  lit "ARRAY[" ++ join (lit ", ") elems ++ lit "]".

(** A boolean literal: bare and lowercase. *)
Definition sql_bool (b : bool) : pystr :=
  if b then lit "true" else lit "false".

(** A parenthesized, comma-separated value tuple, one value per line. *)
Definition sql_tuple (values : list pystr) : pystr :=
  lit "  (" ++ [newline]
  ++ join (lit "," ++ [newline]) (map (fun v => lit "    " ++ v) values)
  ++ [newline] ++ lit "  )".

(** The statement: header, tuples joined by comma-newline, semicolon. *)
Definition sql_statement (tuples : list pystr) : pystr :=
  sql_header ++ join (lit "," ++ [newline]) tuples ++ lit ";".

(** An Article Record: the six fields, typed. *)
Record article := {
  title : pystr;
  content : pystr;
  excerpt : pystr;
  summary : pystr;
  summary_title : pystr;
  reading_time : Z
}.

Definition items_of (a : article) : list (pystr * pyobj) :=
  [ (lit "title", PyStr (title a));
    (lit "content", PyStr (content a));
    (lit "excerpt", PyStr (excerpt a));
    (lit "summary", PyStr (summary a));
    (lit "summary_title", PyStr (summary_title a));
    (lit "reading_time", PyInt (reading_time a)) ].

Definition article_dict (a : article) : pyobj := PyDict (items_of a).

(** The values of the tuple of a record, in column order. *)
Definition row_values (a : article) (featured_image : pystr)
    (tags : list pystr) (is_premium : bool) (views : Z) (created_by : pystr)
  : list pystr :=
  [ sql_text (escape_sql_string (title a));
    sql_text (escape_sql_string (content a));
    sql_text (escape_sql_string (excerpt a));
    sql_text (escape_sql_string (summary a));
    sql_text (escape_sql_string (summary_title a));
    sql_text featured_image;
    decimal (reading_time a);
    sql_array (map sql_text tags);
    sql_bool is_premium;
    decimal views;
    sql_text created_by ].

(** A record whose text fields, where present, are strings. *)
Definition text_fields : list pystr :=
  [lit "title"; lit "content"; lit "excerpt"; lit "summary";
   lit "summary_title"].

Definition typed_record (items : list (pystr * pyobj)) : bool :=
  forallb (fun k => match dict_lookup items k with
                    | Some (PyStr _) | None => true
                    | Some _ => false
                    end) text_fields.

(** A text field of a record, the empty string when it is absent. *)
Definition text_or_empty (items : list (pystr * pyobj)) (k : pystr) : pystr :=
  match dict_lookup items k with
  | Some (PyStr s) => s
  | _ => []
  end.

Definition has_key (items : list (pystr * pyobj)) (k : pystr) : bool :=
  match dict_lookup items k with
  | Some _ => true
  | None => false
  end.

(** A dictionary that has the six keys. *)
Definition six_field_record (v : pyobj) : bool :=
  match v with
  | PyDict items => forallb (has_key items) required_fields
  | _ => false
  end.

(** A record from which a row can be built: a dictionary with the title
    and the content whose text fields are strings. *)
Definition usable_record (v : pyobj) : bool :=
  match v with
  | PyDict items =>
      typed_record items
      && has_key items (lit "title") && has_key items (lit "content")
  | _ => false
  end.

(** A text field as the tuple shows it. *)
Definition text_literal (items : list (pystr * pyobj)) (k : pystr) : pystr :=
  sql_text (escape_sql_string (text_or_empty items k)).

(** The reading time as the tuple shows it. *)
Definition reading_time_literal (W : world) (items : list (pystr * pyobj))
  : pystr :=
  match dict_lookup items (lit "reading_time") with
  | Some v => format_value W v
  | None => decimal 10
  end.

(** The values of the tuple of a record that may lack fields. *)
Definition record_row_values (W : world) (items : list (pystr * pyobj))
    (featured_image : pystr) (tags : list pystr) (is_premium : bool)
    (views : Z) (created_by : pystr) : list pystr :=
  [ text_literal items (lit "title");
    text_literal items (lit "content");
    text_literal items (lit "excerpt");
    text_literal items (lit "summary");
    text_literal items (lit "summary_title");
    sql_text featured_image;
    reading_time_literal W items;
    sql_array (map sql_text tags);
    sql_bool is_premium;
    decimal views;
    sql_text created_by ].

(** An unquoted numeric literal: an optional minus sign and digits. *)
Definition is_digit (c : char) : bool := (48 <=? c)%N && (c <=? 57)%N.

Definition digits (s : pystr) : bool :=
  match s with
  | [] => false
  | _ => forallb is_digit s
  end.

Definition numeric_literal (s : pystr) : bool :=
  match s with
  | c :: rest => if N.eqb c 45 then digits rest else digits s
  | [] => false
  end.

(** A fenced response: an opening fence line, the body, a closing fence
    line. *)
Definition fenced (tag body : pystr) : pystr :=
  lit "```" ++ tag ++ [newline] ++ body ++ [newline] ++ lit "```".

(** ** Sample collaborators *)

Definition jq (s : string) : pystr := [dquote] ++ lit s ++ [dquote].

Definition sample_article : article := {|
  title := lit "Adam's Method";
  content := lit "<p>Body</p>";
  excerpt := lit "A preview";
  summary := lit "A summary";
  summary_title := lit "Adam";
  reading_time := 7
|}.

(** A response with the six fields. *)
Definition six_fields_json : pystr :=
  lit "{" ++ jq "title" ++ lit ": " ++ jq "Adam's Method"
  ++ lit ", " ++ jq "content" ++ lit ": " ++ jq "<p>Body</p>"
  ++ lit ", " ++ jq "excerpt" ++ lit ": " ++ jq "A preview"
  ++ lit ", " ++ jq "summary" ++ lit ": " ++ jq "A summary"
  ++ lit ", " ++ jq "summary_title" ++ lit ": " ++ jq "Adam"
  ++ lit ", " ++ jq "reading_time" ++ lit ": 7}".

(** A response that is a JSON array of the six field names. *)
Definition names_array_json : pystr :=
  lit "[" ++ jq "title" ++ lit ", " ++ jq "content" ++ lit ", "
  ++ jq "excerpt" ++ lit ", " ++ jq "summary" ++ lit ", "
  ++ jq "summary_title" ++ lit ", " ++ jq "reading_time" ++ lit "]".

Definition names_array : pyobj := PyList (map PyStr required_fields).

(** A response with the six keys whose title is [null]. *)
Definition null_title_json : pystr :=
  lit "{" ++ jq "title" ++ lit ": null"
  ++ lit ", " ++ jq "content" ++ lit ": " ++ jq "<p>Body</p>"
  ++ lit ", " ++ jq "excerpt" ++ lit ": " ++ jq "A preview"
  ++ lit ", " ++ jq "summary" ++ lit ": " ++ jq "A summary"
  ++ lit ", " ++ jq "summary_title" ++ lit ": " ++ jq "Adam"
  ++ lit ", " ++ jq "reading_time" ++ lit ": 7}".

Definition null_title : pyobj :=
  PyDict [
    (lit "title", PyNone);
    (lit "content", PyStr (lit "<p>Body</p>"));
    (lit "excerpt", PyStr (lit "A preview"));
    (lit "summary", PyStr (lit "A summary"));
    (lit "summary_title", PyStr (lit "Adam"));
    (lit "reading_time", PyInt 7)
  ].

(** [json.loads] on the three texts above; no other text that the examples
    pass to it is JSON. *)
Definition sample_loads (s : pystr) : result pyobj :=
  match dict_lookup
          [ (six_fields_json, article_dict sample_article);
            (names_array_json, names_array);
            (null_title_json, null_title) ] s with
  | Some v => Ok v
  | None => Raise JSONDecodeError
  end.

Definition sample_hash (s : pystr) : Z := (- Z.of_nat (List.length s))%Z.

(** The world in which every call of the collaborator ends in [reply]. *)
Definition world_replying (reply : result pystr) : world := {|
  get_llm_output := fun _ _ => reply;
  json_loads := sample_loads;
  hash := sample_hash;
  repr := fun _ => []
|}.

(** A record with the title and the content and nothing else. *)
Definition minimal_items : list (pystr * pyobj) :=
  [ (lit "title", PyStr (lit "Adam's Method"));
    (lit "content", PyStr (lit "<p>Body</p>")) ].

Definition sample_self : ArticleGenerator :=
  {| model_name := lit "anthropic.claude-sonnet-4-20250514-v1-0" |}.

Definition sample_creator : pystr :=
  lit "c41b5bc1-d819-4b8a-ab04-cf1ae4692304".

Definition sample_topic : topic_request := {|
  name := lit "Gradient Descent";
  tags := Some [lit "optimization"; lit "ml"];
  is_premium := None;
  views := Some 5%Z
|}.

(** ** Reading the output back *)

(** A reader of SQL string literals: the text after the opening quote, up
    to the closing quote; a quote inside the literal is written twice.  It
    returns the value and the text that follows the literal. *)
Fixpoint read_literal_body (s : pystr) : option (pystr * pystr) :=
  match s with
  | [] => None
  | c :: rest =>
      if N.eqb c quote then
        match rest with
        | c' :: rest' =>
            if N.eqb c' quote then
              match read_literal_body rest' with
              | Some (value, after) => Some (quote :: value, after)
              | None => None
              end
            else Some ([], rest)
        | [] => Some ([], [])
        end
      else
        match read_literal_body rest with
        | Some (value, after) => Some (c :: value, after)
        | None => None
        end
  end.

Definition read_sql_literal (s : pystr) : option (pystr * pystr) :=
  match s with
  | c :: rest => if N.eqb c quote then read_literal_body rest else None
  | [] => None
  end.

(** ** More of the module *)

(** The record of the [except] branch, typed. *)
Definition fallback_article (topic : pystr) : article := {|
  title := lit "Understanding " ++ topic ++ lit ": A Comprehensive Guide";
  content := lit "<p>This is a comprehensive guide about " ++ topic ++ lit ".</p>";
  excerpt := lit "Learn about " ++ topic ++ lit " in machine learning.";
  summary :=
    str_mul (topic ++ lit " is an important concept in machine learning. ") 10;
  summary_title := firstn 30 topic;
  reading_time := 10
|}.

(** The image of a topic, as [get_featured_image] picks it. *)
Definition image_of (W : world) (topic : pystr) : pystr :=
  nth (Z.to_nat (hash W topic mod 5)) default_images [].

(** The first required field that a dictionary lacks. *)
Definition first_missing (items : list (pystr * pyobj)) : option pystr :=
  find (fun field => negb (has_key items field)) required_fields.

(** A value that is no container: [in] raises on it. *)
Definition scalar (v : pyobj) : bool :=
  match v with
  | PyNone | PyBool _ | PyInt _ | PyFloat _ => true
  | PyStr _ | PyList _ | PyDict _ => false
  end.

(** Does the validation loop pass on [v]? *)
Definition contains_fields (v : pyobj) : bool :=
  forallb (fun field => match py_in field v with
                        | Ok true => true
                        | _ => false
                        end) required_fields.

(** The record that the Content Requester gives for a topic of the batch. *)
Definition topic_record (W : world) (self : ArticleGenerator)
    (t : topic_request) : pyobj :=
  generate_article_content W self (name t) (get_or (tags t) []).

(** The row of a topic of the batch. *)
Definition topic_insert (W : world) (self : ArticleGenerator)
    (created_by : pystr) (t : topic_request) : result pystr :=
  generate_sql_insert W self (name t) (get_or (tags t) [])
    (get_or (is_premium t) false) (get_or (views t) 0%Z) created_by.

(** The row of a topic whose generation failed. *)
Definition fallback_row (W : world) (created_by : pystr) (t : topic_request)
  : pystr :=
  sql_tuple
    (row_values (fallback_article (name t)) (image_of W (name t))
       (get_or (tags t) []) (get_or (is_premium t) false)
       (get_or (views t) 0%Z) created_by).

(** A world whose decoder gives [v] for every text. *)
Definition world_decoding (reply : result pystr) (v : pyobj) : world := {|
  get_llm_output := fun _ _ => reply;
  json_loads := fun _ => Ok v;
  hash := sample_hash;
  repr := fun _ => []
|}.

(** A record whose reading time is a text. *)
Definition text_time_items : list (pystr * pyobj) :=
  [ (lit "title", PyStr (lit "T"));
    (lit "content", PyStr (lit "C"));
    (lit "reading_time", PyStr (lit "7 minutes")) ].

(** A topic with the name only. *)
Definition bare_topic : topic_request := {|
  name := lit "Adam's rule";
  tags := None;
  is_premium := None;
  views := None
|}.

(** ** Theorems *)

Lemma escape_sql_string_doubled (text : pystr) :
  escape_sql_string text = doubled text.
Proof.
  unfold escape_sql_string, str_replace, doubled.
  induction text as [|c rest IH]; [reflexivity|].
  change (lit "'") with [quote] in *. change (lit "''") with [quote; quote] in *.
  cbn [replace_from startswith flat_map length Nat.sub].
  unfold double_quote at 1.
  rewrite N.eqb_sym, andb_true_r.
  destruct (N.eqb c quote); cbn; now rewrite IH.
Qed.

Lemma count_quotes_app (a b : pystr) :
  count_quotes (a ++ b) = count_quotes a + count_quotes b.
Proof. apply count_occ_app. Qed.

Lemma without_quotes_app (a b : pystr) :
  without_quotes (a ++ b) = without_quotes a ++ without_quotes b.
Proof. apply filter_app. Qed.

(** C1. [escape_sql_string] replaces each single quote by two consecutive
    single quotes and passes every other code point through in order: an
    input with N single quotes gives an output with 2N of them, and the two
    are equal once the quotes are taken out. *)
Theorem escape_sql_string_spec (text : pystr) :
  escape_sql_string text = doubled text /\
  count_quotes (escape_sql_string text) = 2 * count_quotes text /\
  without_quotes (escape_sql_string text) = without_quotes text.
Proof.
  rewrite escape_sql_string_doubled. split; [reflexivity|].
  unfold doubled. split.
  - induction text as [|c rest IH]; [reflexivity|].
    cbn [flat_map]. rewrite count_quotes_app, IH.
    unfold double_quote, count_quotes.
    destruct (N.eqb_spec c quote) as [->|Hne].
    + cbn. lia.
    + cbn [count_occ]. destruct (N.eq_dec c quote); [contradiction|]. lia.
  - induction text as [|c rest IH]; [reflexivity|].
    cbn [flat_map]. rewrite without_quotes_app, IH.
    unfold double_quote, without_quotes.
    destruct (N.eqb c quote) eqn:E; cbn; rewrite ?E; reflexivity.
Qed.

(** *** The result monad *)

Lemma bind_ok {A B : Type} (r : result A) (k : A -> result B) (b : B) :
  bind r k = Ok b -> exists a, r = Ok a /\ k a = Ok b.
Proof. destruct r as [a|e]; cbn; [eauto | discriminate]. Qed.

(** *** Content Requester *)

Lemma unfence_plain (response : pystr) :
  startswith (lit "```") response = false -> unfence response = response.
Proof. unfold unfence. now intros ->. Qed.

Lemma validate_record (items : list (pystr * pyobj)) (fields : list pystr) :
  forallb (has_key items) fields = true ->
  validate fields (PyDict items) = Ok tt.
Proof.
  induction fields as [|f rest IH]; [reflexivity|].
  cbn [forallb validate py_in bind]. unfold has_key at 1.
  intros [Hf Hrest]%andb_prop.
  destruct (dict_lookup items f); [now apply IH | discriminate].
Qed.

(** A value that passed the validation loop contains every field, in the
    sense of the [in] operator. *)
Lemma validate_ok (fields : list pystr) (v : pyobj) :
  validate fields v = Ok tt ->
  forall f, In f fields -> py_in f v = Ok true.
Proof.
  induction fields as [|g rest IH]; intros Hv f Hin; [destruct Hin|].
  cbn [validate] in Hv.
  destruct (py_in g v) as [[|]|] eqn:E; cbn in Hv; try discriminate.
  destruct Hin as [<-|Hin]; [assumption | now apply IH].
Qed.

(** The three ways in which the body of the [try] raises. *)
Lemma try_generate_raise (W : world) (self : ArticleGenerator)
    (topic : pystr) (tags : list pystr) (e : exn) :
  try_generate W self topic tags = Raise e <->
  get_llm_output W (prompt topic tags) (model_name self) = Raise e \/
  (exists response,
     get_llm_output W (prompt topic tags) (model_name self) = Ok response /\
     (json_loads W (unfence response) = Raise e \/
      exists article_data,
        json_loads W (unfence response) = Ok article_data /\
        validate required_fields article_data = Raise e)).
Proof.
  unfold try_generate. cbv zeta. split.
  - intros H.
    destruct (get_llm_output W (prompt topic tags) (model_name self))
      as [response|e1]; cbn [bind] in H; [right | left; congruence].
    exists response. split; [reflexivity|].
    destruct (json_loads W (unfence response)) as [d|e2]; cbn [bind] in H;
      [right | left; congruence].
    exists d. split; [reflexivity|].
    destruct (validate required_fields d); cbn [bind] in H; congruence.
  - intros [-> | (response & -> & Hrest)]; cbn [bind]; [reflexivity|].
    destruct Hrest as [-> | (d & -> & Hv)]; cbn [bind]; [reflexivity|].
    now rewrite Hv.
Qed.

Lemma try_generate_ok (W : world) (self : ArticleGenerator)
    (topic : pystr) (tags : list pystr) (article_data : pyobj) :
  try_generate W self topic tags = Ok article_data <->
  exists response,
    get_llm_output W (prompt topic tags) (model_name self) = Ok response /\
    json_loads W (unfence response) = Ok article_data /\
    validate required_fields article_data = Ok tt.
Proof.
  unfold try_generate. cbv zeta. split.
  - intros (response & -> & H)%bind_ok. exists response.
    split; [reflexivity|].
    apply bind_ok in H as (d & Hd & H).
    apply bind_ok in H as ([] & Hv & [= ->]). now split.
  - intros (response & -> & Hd & Hv). cbn [bind]. rewrite Hd. cbn [bind].
    now rewrite Hv.
Qed.

(** [generate_article_content] returns on every path: the validated value,
    or the fallback. *)
Lemma generate_article_content_cases (W : world) (self : ArticleGenerator)
    (topic : pystr) (tags : list pystr) :
  (exists e, try_generate W self topic tags = Raise e /\
     generate_article_content W self topic tags = fallback topic) \/
  try_generate W self topic tags
    = Ok (generate_article_content W self topic tags).
Proof.
  unfold generate_article_content.
  destruct (try_generate W self topic tags) as [d|e]; [now right|].
  left. now exists e.
Qed.

(** C4. When the Content Requester fails for a topic, in any of its ways,
    the record is the fallback built from the topic alone: the title is
    "Understanding {topic}: A Comprehensive Guide", the summary title is the
    first 30 characters of the topic and the reading time is 10. *)
Theorem fallback_on_failure (W : world) (self : ArticleGenerator)
    (topic : pystr) (tags : list pystr) (e : exn) :
  try_generate W self topic tags = Raise e ->
  let record := generate_article_content W self topic tags in
  record = fallback topic /\
  py_getitem record (lit "title")
    = Ok (PyStr (lit "Understanding " ++ topic
                 ++ lit ": A Comprehensive Guide")) /\
  py_getitem record (lit "summary_title") = Ok (PyStr (firstn 30 topic)) /\
  py_getitem record (lit "reading_time") = Ok (PyInt 10).
Proof.
  intros H. cbv zeta. unfold generate_article_content. rewrite H.
  repeat split; reflexivity.
Qed.

Lemma fallback_on_failure_witness :
  let W := world_replying (Raise (RuntimeError (lit "timeout"))) in
  let topic := lit "A topic whose name is longer than thirty characters" in
  generate_article_content W sample_self topic [] = fallback topic /\
  py_getitem (generate_article_content W sample_self topic []) (lit "title")
    = Ok (PyStr (lit "Understanding A topic whose name is longer than thirty characters: A Comprehensive Guide")) /\
  py_getitem (generate_article_content W sample_self topic [])
      (lit "summary_title")
    = Ok (PyStr (lit "A topic whose name is longer t")) /\
  py_getitem (generate_article_content W sample_self topic [])
      (lit "reading_time") = Ok (PyInt 10).
Proof.
  exact (fallback_on_failure
           (world_replying (Raise (RuntimeError (lit "timeout"))))
           sample_self
           (lit "A topic whose name is longer than thirty characters") []
           (RuntimeError (lit "timeout")) eq_refl).
Defined.

(** C6. A response that is a well-formed JSON object with the six fields
    comes back as the record the text denotes, unchanged.  Such a text
    starts with white space or a brace, so not with a fence. *)
Theorem well_formed_response_verbatim (W : world) (self : ArticleGenerator)
    (topic : pystr) (tags : list pystr) (response : pystr)
    (items : list (pystr * pyobj)) :
  get_llm_output W (prompt topic tags) (model_name self) = Ok response ->
  startswith (lit "```") response = false ->
  json_loads W response = Ok (PyDict items) ->
  forallb (has_key items) required_fields = true ->
  generate_article_content W self topic tags = PyDict items.
Proof.
  intros Hllm Hplain Hjson Hfields.
  unfold generate_article_content, try_generate.
  rewrite Hllm. cbn [bind]. rewrite (unfence_plain _ Hplain), Hjson.
  cbn [bind]. now rewrite (validate_record _ _ Hfields).
Qed.

Lemma well_formed_response_verbatim_witness :
  generate_article_content (world_replying (Ok six_fields_json)) sample_self
    (lit "Gradient Descent") [lit "optimization"; lit "ml"]
  = article_dict sample_article.
Proof.
  exact (well_formed_response_verbatim
           (world_replying (Ok six_fields_json)) sample_self
           (lit "Gradient Descent") [lit "optimization"; lit "ml"]
           six_fields_json (items_of sample_article)
           eq_refl eq_refl eq_refl eq_refl).
Defined.

(** *** Image Selector *)

Lemma list_index_in_range {A : Type} (l : list A) (i : Z) :
  (0 <= i < Z.of_nat (List.length l))%Z ->
  exists x, list_index l i = Ok x /\
            nth_error l (Z.to_nat i) = Some x /\ In x l.
Proof.
  intros Hi. unfold list_index.
  destruct (Z.ltb_spec i 0) as [Hneg|_]; [lia|].
  destruct (Z.leb_spec 0 i) as [_|Hneg]; [|lia].
  destruct (Z.ltb_spec i (Z.of_nat (List.length l))) as [_|Hbig]; [|lia].
  cbn [andb].
  destruct (nth_error l (Z.to_nat i)) as [x|] eqn:E.
  - exists x. repeat split. eapply nth_error_In, E.
  - apply nth_error_None in E. lia.
Qed.

Lemma image_index_in_range (W : world) (topic : pystr) :
  (0 <= hash W topic mod Z.of_nat (List.length default_images)
     < Z.of_nat (List.length default_images))%Z.
Proof. apply Z.mod_pos_bound. reflexivity. Qed.

Lemma get_featured_image_ok (W : world) (topic : pystr) :
  exists url, get_featured_image W topic = Ok url /\ In url default_images.
Proof.
  destruct (list_index_in_range default_images _ (image_index_in_range W topic))
    as (url & Hurl & _ & Hin).
  now exists url.
Qed.

(** C9. Whatever integer the hash of the topic is, negative ones included,
    the index into the pool of five images lies between 0 and 4, so the
    selection succeeds with one of the five URLs; and any call made while
    the hash of the topic is the same returns that same URL. *)
Theorem get_featured_image_in_pool (W : world) (topic : pystr) :
  (0 <= hash W topic mod 5 <= 4)%Z /\
  exists url,
    get_featured_image W topic = Ok url /\
    In url default_images /\
    nth_error default_images (Z.to_nat (hash W topic mod 5)) = Some url /\
    forall W' : world,
      hash W' topic = hash W topic -> get_featured_image W' topic = Ok url.
Proof.
  pose proof (image_index_in_range W topic) as Hi.
  destruct (list_index_in_range default_images _ Hi) as (url & Hurl & Hnth & Hin).
  change (Z.of_nat (List.length default_images)) with 5%Z in *.
  split; [lia|]. exists url. repeat split; try assumption.
  intros W' Hsame. unfold get_featured_image. now rewrite Hsame.
Qed.

Lemma get_featured_image_in_pool_witness :
  exists url,
    get_featured_image (world_replying (Ok six_fields_json))
      (lit "Gradient Descent") = Ok url /\
    get_featured_image (world_replying (Raise TypeError))
      (lit "Gradient Descent") = Ok url.
Proof.
  destruct (get_featured_image_in_pool (world_replying (Ok six_fields_json))
              (lit "Gradient Descent")) as (_ & url & Hurl & _ & _ & Hsame).
  exists url. split; [exact Hurl|].
  exact (Hsame (world_replying (Raise TypeError)) eq_refl).
Defined.

(** *** Row Builder *)

Lemma typed_record_field (items : list (pystr * pyobj)) (k : pystr) :
  typed_record items = true -> In k text_fields ->
  dict_lookup items k = None \/ exists s, dict_lookup items k = Some (PyStr s).
Proof.
  unfold typed_record. rewrite forallb_forall. intros H Hin.
  specialize (H k Hin).
  destruct (dict_lookup items k) as [[]|]; try discriminate; eauto.
Qed.

Lemma py_get_text (items : list (pystr * pyobj)) (k : pystr) :
  typed_record items = true -> In k text_fields ->
  py_get (PyDict items) k (PyStr []) = Ok (PyStr (text_or_empty items k)).
Proof.
  intros Ht Hin. unfold text_or_empty, py_get.
  destruct (typed_record_field items k Ht Hin) as [-> | (s & ->)];
    reflexivity.
Qed.

Lemma py_getitem_text (items : list (pystr * pyobj)) (k : pystr) :
  typed_record items = true -> In k text_fields -> has_key items k = true ->
  py_getitem (PyDict items) k = Ok (PyStr (text_or_empty items k)).
Proof.
  intros Ht Hin. unfold text_or_empty, py_getitem, has_key.
  destruct (typed_record_field items k Ht Hin) as [-> | (s & ->)];
    [discriminate | reflexivity].
Qed.

Lemma py_getitem_absent (items : list (pystr * pyobj)) (k : pystr) :
  has_key items k = false -> py_getitem (PyDict items) k = Raise (KeyError k).
Proof.
  unfold has_key, py_getitem.
  destruct (dict_lookup items k); [discriminate | reflexivity].
Qed.

Lemma str_lower_str_bool (b : bool) : str_lower (str_bool b) = sql_bool b.
Proof. now destruct b. Qed.

(** The text of lines 186 to 198 is a tuple of eleven values. *)
Lemma row_layout (t c e s st img rt tg b v cr : pystr) :
  lit "  (" ++ [newline]
  ++ lit "    '" ++ t ++ lit "'," ++ [newline]
  ++ lit "    '" ++ c ++ lit "'," ++ [newline]
  ++ lit "    '" ++ e ++ lit "'," ++ [newline]
  ++ lit "    '" ++ s ++ lit "'," ++ [newline]
  ++ lit "    '" ++ st ++ lit "'," ++ [newline]
  ++ lit "    '" ++ img ++ lit "'," ++ [newline]
  ++ lit "    " ++ rt ++ lit "," ++ [newline]
  ++ lit "    ARRAY[" ++ tg ++ lit "]," ++ [newline]
  ++ lit "    " ++ b ++ lit "," ++ [newline]
  ++ lit "    " ++ v ++ lit "," ++ [newline]
  ++ lit "    '" ++ cr ++ lit "'" ++ [newline]
  ++ lit "  )"
  = sql_tuple [sql_text t; sql_text c; sql_text e; sql_text s; sql_text st;
               sql_text img; rt; lit "ARRAY[" ++ tg ++ lit "]"; b; v;
               sql_text cr].
Proof.
  unfold sql_tuple, sql_text. cbn [map join].
  repeat rewrite <- app_assoc. reflexivity.
Qed.

Ltac in_text_fields := unfold text_fields; cbn [In]; tauto.

Lemma build_row_typed (W : world) (items : list (pystr * pyobj))
    (featured_image : pystr) (tags : list pystr) (is_premium : bool)
    (views : Z) (created_by : pystr) :
  typed_record items = true ->
  has_key items (lit "title") = true ->
  has_key items (lit "content") = true ->
  build_row W (PyDict items) featured_image tags is_premium views created_by
  = Ok (sql_tuple (record_row_values W items featured_image tags is_premium
                     views created_by)).
Proof.
  intros Ht Htitle Hcontent. unfold build_row.
  rewrite (py_getitem_text items (lit "title") Ht) by
    (assumption || in_text_fields).
  cbn [bind call_escape].
  rewrite (py_getitem_text items (lit "content") Ht) by
    (assumption || in_text_fields).
  cbn [bind call_escape].
  rewrite !(py_get_text items _ Ht) by in_text_fields.
  cbn [bind call_escape]. cbv zeta.
  unfold py_get. cbn [bind].
  rewrite str_lower_str_bool, row_layout.
  unfold record_row_values, text_literal, reading_time_literal, sql_array.
  destruct (dict_lookup items (lit "reading_time")); reflexivity.
Qed.

Lemma digits_uint (d : Decimal.uint) :
  forallb is_digit (lit (NilEmpty.string_of_uint d)) = true.
Proof. induction d; cbn; [reflexivity | assumption ..]. Qed.

Lemma digits_nilzero (d : Decimal.uint) :
  digits (lit (NilZero.string_of_uint d)) = true.
Proof.
  assert (Hne : forall s, s <> [] -> forallb is_digit s = true ->
                          digits s = true)
    by (intros [|c s] Hs H; [now contradiction Hs | exact H]).
  destruct d; try reflexivity;
    (apply Hne; [discriminate | apply digits_uint]).
Qed.

Lemma digits_numeric (s : pystr) : digits s = true -> numeric_literal s = true.
Proof.
  destruct s as [|c rest]; [discriminate|].
  intros H. unfold numeric_literal.
  destruct (N.eqb_spec c 45) as [->|_]; [discriminate | exact H].
Qed.

(** [str(n)] is an optional minus sign followed by digits. *)
Lemma decimal_numeric (z : Z) : numeric_literal (decimal z) = true.
Proof.
  unfold decimal. destruct z as [|p|p]; [reflexivity| |].
  - apply digits_numeric, digits_nilzero.
  - cbn [Z.to_int NilZero.string_of_int].
    exact (digits_nilzero (Pos.to_uint p)).
Qed.

(** C7. For every article record, tag list, image URL, premium flag, view
    count and creator string the row is one parenthesized, comma-separated
    tuple of eleven values in the fixed column order: the five text fields
    escaped and quoted, the image quoted, the reading time as an unquoted
    number, the tags as an ARRAY literal of quoted elements, the flag as
    bare true or false, the views as an unquoted number and the creator
    quoted as it is given. *)
Theorem build_row_record (W : world) (a : article) (featured_image : pystr)
    (tags : list pystr) (is_premium : bool) (views : Z) (created_by : pystr) :
  build_row W (article_dict a) featured_image tags is_premium views created_by
  = Ok (sql_tuple
          [ sql_text (escape_sql_string (title a));
            sql_text (escape_sql_string (content a));
            sql_text (escape_sql_string (excerpt a));
            sql_text (escape_sql_string (summary a));
            sql_text (escape_sql_string (summary_title a));
            sql_text featured_image;
            decimal (reading_time a);
            sql_array (map sql_text tags);
            sql_bool is_premium;
            decimal views;
            sql_text created_by ]) /\
  numeric_literal (decimal (reading_time a)) = true /\
  numeric_literal (decimal views) = true.
Proof.
  split; [|split; apply decimal_numeric].
  unfold article_dict. now rewrite build_row_typed.
Qed.

(** The same for the whole of [generate_sql_insert], when the record comes
    from the Content Requester. *)
Lemma generate_sql_insert_record (W : world) (self : ArticleGenerator)
    (topic : pystr) (tags : list pystr) (is_premium : bool) (views : Z)
    (created_by : pystr) (a : article) :
  generate_article_content W self topic tags = article_dict a ->
  exists featured_image,
    In featured_image default_images /\
    generate_sql_insert W self topic tags is_premium views created_by
    = Ok (sql_tuple
            (row_values a featured_image tags is_premium views created_by)).
Proof.
  intros Ha. destruct (get_featured_image_ok W topic) as (img & Himg & Hin).
  exists img. split; [assumption|].
  unfold generate_sql_insert. rewrite Ha, Himg. cbn [bind].
  unfold article_dict. now rewrite build_row_typed.
Qed.

Lemma text_literal_absent (items : list (pystr * pyobj)) (k : pystr) :
  has_key items k = false -> text_literal items k = lit "''".
Proof.
  unfold has_key, text_literal, text_or_empty.
  destruct (dict_lookup items k); [discriminate | reflexivity].
Qed.

Lemma reading_time_literal_absent (W : world)
    (items : list (pystr * pyobj)) :
  has_key items (lit "reading_time") = false ->
  reading_time_literal W items = lit "10".
Proof.
  unfold has_key, reading_time_literal.
  destruct (dict_lookup items (lit "reading_time"));
    [discriminate | reflexivity].
Qed.

(** C10. The Row Builder needs the title and the content only.  For every
    record whose text fields are strings, it returns a row exactly when both
    are present and raises KeyError otherwise; an absent excerpt, summary or
    summary title is rendered as the empty string, an absent reading time
    as 10. *)
Theorem build_row_requires_title_and_content (W : world)
    (items : list (pystr * pyobj)) (featured_image : pystr)
    (tags : list pystr) (is_premium : bool) (views : Z) (created_by : pystr) :
  typed_record items = true ->
  let row :=
    build_row W (PyDict items) featured_image tags is_premium views
      created_by in
  succeeds row = has_key items (lit "title") && has_key items (lit "content")
  /\ (has_key items (lit "title") = true ->
      has_key items (lit "content") = true ->
      row = Ok (sql_tuple
                  [ text_literal items (lit "title");
                    text_literal items (lit "content");
                    text_literal items (lit "excerpt");
                    text_literal items (lit "summary");
                    text_literal items (lit "summary_title");
                    sql_text featured_image;
                    reading_time_literal W items;
                    sql_array (map sql_text tags);
                    sql_bool is_premium;
                    decimal views;
                    sql_text created_by ]))
  /\ (has_key items (lit "title") = false ->
      row = Raise (KeyError (lit "title")))
  /\ (has_key items (lit "title") = true ->
      has_key items (lit "content") = false ->
      row = Raise (KeyError (lit "content")))
  /\ (forall k, has_key items k = false -> text_literal items k = lit "''")
  /\ (has_key items (lit "reading_time") = false ->
      reading_time_literal W items = lit "10").
Proof.
  intros Ht row.
  assert (Hboth : has_key items (lit "title") = true ->
                  has_key items (lit "content") = true ->
                  row = Ok (sql_tuple (record_row_values W items
                       featured_image tags is_premium views created_by)))
    by (intros; now apply build_row_typed).
  assert (Hno_title : has_key items (lit "title") = false ->
                      row = Raise (KeyError (lit "title"))).
  { intros H. unfold row, build_row.
    now rewrite (py_getitem_absent items _ H). }
  assert (Hno_content : has_key items (lit "title") = true ->
                        has_key items (lit "content") = false ->
                        row = Raise (KeyError (lit "content"))).
  { intros H1 H2. unfold row, build_row.
    rewrite (py_getitem_text items (lit "title") Ht) by
      (assumption || in_text_fields).
    cbn [bind call_escape]. now rewrite (py_getitem_absent items _ H2). }
  repeat split; try assumption.
  - destruct (has_key items (lit "title")) eqn:E1.
    + destruct (has_key items (lit "content")) eqn:E2.
      * now rewrite Hboth.
      * now rewrite Hno_content.
    + now rewrite Hno_title.
  - apply text_literal_absent.
  - apply reading_time_literal_absent.
Qed.

Lemma build_row_requires_title_and_content_witness :
  build_row (world_replying (Raise TypeError)) (PyDict minimal_items)
    (lit "https://images.pexels.com/photos/8439093/pexels-photo-8439093.jpeg")
    [lit "ml"] false 0 sample_creator
  = Ok (sql_tuple
          [ lit "'Adam''s Method'";
            lit "'<p>Body</p>'";
            lit "''";
            lit "''";
            lit "''";
            lit "'https://images.pexels.com/photos/8439093/pexels-photo-8439093.jpeg'";
            lit "10";
            lit "ARRAY['ml']";
            lit "false";
            lit "0";
            lit "'c41b5bc1-d819-4b8a-ab04-cf1ae4692304'" ]).
Proof.
  exact (proj1 (proj2
    (build_row_requires_title_and_content (world_replying (Raise TypeError))
       minimal_items
       (lit "https://images.pexels.com/photos/8439093/pexels-photo-8439093.jpeg")
       [lit "ml"] false 0 sample_creator eq_refl)) eq_refl eq_refl).
Defined.

(** C10 as first stated, without the condition on the types, fails: a record
    that contains the title and the content, the title being [null], makes
    the Row Builder raise AttributeError, since [None] has no [replace]. *)
Lemma build_row_null_title_raises :
  py_in (lit "title") null_title = Ok true /\
  py_in (lit "content") null_title = Ok true /\
  build_row (world_replying (Raise TypeError)) null_title
    (lit "https://images.pexels.com/photos/8439093/pexels-photo-8439093.jpeg")
    [lit "ml"] false 0 sample_creator
  = Raise AttributeError.
Proof. repeat split. Qed.

(** *** Batch Orchestrator *)

(** The row of one topic, as the loop asks for it. *)
Lemma batch_inserts_cons (W : world) (self : ArticleGenerator)
    (t : topic_request) (rest : list topic_request) (created_by : pystr) :
  batch_inserts W self (t :: rest) created_by
  = bind (generate_sql_insert W self (name t) (get_or (tags t) [])
            (get_or (is_premium t) false) (get_or (views t) 0%Z) created_by)
      (fun insert =>
         bind (batch_inserts W self rest created_by)
           (fun inserts => Ok (insert :: inserts))).
Proof. reflexivity. Qed.

(** When the loop ends, there is one row per topic, in the order of the
    topics. *)
Lemma batch_inserts_rows (W : world) (self : ArticleGenerator)
    (topics : list topic_request) (created_by : pystr) (rows : list pystr) :
  batch_inserts W self topics created_by = Ok rows ->
  Forall2
    (fun t row =>
       generate_sql_insert W self (name t) (get_or (tags t) [])
         (get_or (is_premium t) false) (get_or (views t) 0%Z) created_by
       = Ok row)
    topics rows.
Proof.
  revert rows. induction topics as [|t rest IH]; intros rows H.
  - injection H as <-. constructor.
  - rewrite batch_inserts_cons in H.
    apply bind_ok in H as (row & Hrow & H).
    apply bind_ok in H as (rows' & Hrows & [= <-]).
    constructor; [exact Hrow | now apply IH].
Qed.

Lemma batch_inserts_length (W : world) (self : ArticleGenerator)
    (topics : list topic_request) (created_by : pystr) (rows : list pystr) :
  batch_inserts W self topics created_by = Ok rows ->
  List.length rows = List.length topics.
Proof.
  intros H. symmetry. eapply Forall2_length, batch_inserts_rows, H.
Qed.

(** A statement that is returned is the header, the rows of the topics
    joined by comma-newline, and the semicolon. *)
Lemma generate_batch_sql_statement (W : world) (self : ArticleGenerator)
    (topics : list topic_request) (created_by : pystr) (sql : pystr) :
  generate_batch_sql W self topics created_by = Ok sql ->
  exists rows,
    batch_inserts W self topics created_by = Ok rows /\
    List.length rows = List.length topics /\
    sql = sql_statement rows.
Proof.
  unfold generate_batch_sql. intros (rows & Hrows & [= <-])%bind_ok.
  exists rows. repeat split; [assumption|].
  eapply batch_inserts_length, Hrows.
Qed.

Lemma generate_sql_insert_usable (W : world) (self : ArticleGenerator)
    (topic : pystr) (tags : list pystr) (is_premium : bool) (views : Z)
    (created_by : pystr) :
  usable_record (generate_article_content W self topic tags) = true ->
  succeeds (generate_sql_insert W self topic tags is_premium views created_by)
  = true.
Proof.
  unfold generate_sql_insert, usable_record.
  destruct (generate_article_content W self topic tags); try discriminate.
  intros [[Ht Htitle]%andb_prop Hcontent]%andb_prop.
  destruct (get_featured_image_ok W topic) as (img & -> & _). cbn [bind].
  now rewrite build_row_typed.
Qed.

Lemma fallback_usable (topic : pystr) : usable_record (fallback topic) = true.
Proof. reflexivity. Qed.

(** The loop completes when every record is usable; the records that the
    fallback gives are. *)
Lemma generate_batch_sql_usable (W : world) (self : ArticleGenerator)
    (topics : list topic_request) (created_by : pystr) :
  (forall t, In t topics ->
     usable_record
       (generate_article_content W self (name t) (get_or (tags t) []))
     = true) ->
  exists rows,
    generate_batch_sql W self topics created_by = Ok (sql_statement rows) /\
    List.length rows = List.length topics.
Proof.
  intros Hall.
  assert (exists rows, batch_inserts W self topics created_by = Ok rows)
    as (rows & Hrows).
  { induction topics as [|t rest IH]; [now exists []|].
    destruct IH as (rows & Hrows); [intros; apply Hall; now right|].
    rewrite batch_inserts_cons, Hrows.
    pose proof (generate_sql_insert_usable W self (name t)
                  (get_or (tags t) []) (get_or (is_premium t) false)
                  (get_or (views t) 0%Z) created_by
                  (Hall t (or_introl eq_refl))) as Hrow.
    destruct (generate_sql_insert W self (name t) (get_or (tags t) [])
                (get_or (is_premium t) false) (get_or (views t) 0%Z)
                created_by) as [row|]; [|discriminate].
    now exists (row :: rows). }
  exists rows. split; [|eapply batch_inserts_length, Hrows].
  unfold generate_batch_sql. now rewrite Hrows.
Qed.

Lemma generate_batch_sql_all_failing (W : world) (self : ArticleGenerator)
    (topics : list topic_request) (created_by : pystr) :
  (forall prompt_text model, succeeds (get_llm_output W prompt_text model)
                             = false) ->
  exists rows,
    generate_batch_sql W self topics created_by = Ok (sql_statement rows) /\
    List.length rows = List.length topics.
Proof.
  intros Hfail. apply generate_batch_sql_usable. intros t _.
  unfold generate_article_content, try_generate.
  specialize (Hfail (prompt (name t) (get_or (tags t) [])) (model_name self)).
  destruct (get_llm_output W _ _); [discriminate|]. apply fallback_usable.
Qed.

(** C3, at a response that is the JSON array of the six field names.  The
    membership test of the validation loop holds for each name, so the list
    is returned as the article: no failure is signalled, the fallback is not
    used, and what comes back is not a dictionary with the six fields. *)
Theorem validation_accepts_array :
  let W := world_replying (Ok names_array_json) in
  let article_data :=
    generate_article_content W sample_self (lit "Gradient Descent")
      [lit "optimization"; lit "ml"] in
  article_data = PyList (map PyStr required_fields) /\
  six_field_record article_data = false /\
  py_getitem article_data (lit "title") = Raise TypeError.
Proof. repeat split. Qed.

(** C2, at the same response, and at a response with the six keys whose
    title is [null]: the record passes the validation, the Row Builder
    raises on it, and the batch of one topic returns no statement. *)
Theorem batch_raises_after_validation :
  generate_batch_sql (world_replying (Ok names_array_json)) sample_self
    [sample_topic] sample_creator = Raise TypeError /\
  generate_batch_sql (world_replying (Ok null_title_json)) sample_self
    [sample_topic] sample_creator = Raise AttributeError.
Proof. split; reflexivity. Qed.

(** C8, at a tag with a single quote.  The five text fields are escaped; the
    tags are quoted as they are, so the quote of the tag ends its literal. *)
Theorem tag_quote_not_escaped :
  generate_sql_insert (world_replying (Ok six_fields_json)) sample_self
    (lit "Gradient Descent") [lit "it's"; lit "ml"] true 5 sample_creator
  = Ok (join [newline]
          [ lit "  (";
            lit "    'Adam''s Method',";
            lit "    '<p>Body</p>',";
            lit "    'A preview',";
            lit "    'A summary',";
            lit "    'Adam',";
            lit "    'https://images.pexels.com/photos/7516366/pexels-photo-7516366.jpeg',";
            lit "    7,";
            lit "    ARRAY['it's', 'ml'],";
            lit "    true,";
            lit "    5,";
            lit "    'c41b5bc1-d819-4b8a-ab04-cf1ae4692304'";
            lit "  )" ]).
Proof. reflexivity. Qed.

(** *** Fenced responses *)

Lemma is_space_not_newline (c : char) :
  is_space c = false -> N.eqb c newline = false.
Proof. destruct (N.eqb_spec c newline) as [->|]; [discriminate | easy]. Qed.

Lemma lstrip_space_no_newline (s : pystr) :
  drop_optional newline (lstrip_space s) = lstrip_space s.
Proof.
  induction s as [|c rest IH]; [reflexivity|].
  cbn [lstrip_space]. destruct (is_space c) eqn:E; [exact IH|].
  cbn [drop_optional]. now rewrite (is_space_not_newline c E).
Qed.

Lemma lstrip_space_all (s : pystr) :
  forallb is_space s = true -> lstrip_space s = [].
Proof.
  induction s as [|c rest IH]; [reflexivity|].
  cbn [forallb lstrip_space]. intros [-> Hrest]%andb_prop. now apply IH.
Qed.

(** The white space in front of the body goes with the opening fence. *)
Lemma lstrip_space_before_fence (body : pystr) :
  lstrip_space (body ++ [newline] ++ lit "```")
  = if forallb is_space body then lit "```"
    else lstrip_space body ++ [newline] ++ lit "```".
Proof.
  induction body as [|c rest IH]; [reflexivity|].
  cbn [app lstrip_space forallb].
  destruct (is_space c); [exact IH | reflexivity].
Qed.

(** Three code points into a text that ends with the closing fence, there
    is a backquote left, which is no white space. *)
Lemma fence_after_three (x : pystr) :
  forallb is_space (skipn 3 (x ++ [newline] ++ lit "```")) = false.
Proof.
  destruct x as [|a [|b [|c x]]]; try reflexivity.
  cbn [app skipn]. rewrite forallb_app.
  apply andb_false_intro2. reflexivity.
Qed.

Lemma close_fence_at_before (c : char) (s : pystr) :
  close_fence_at (c :: s ++ [newline] ++ lit "```") = false.
Proof.
  unfold close_fence_at. cbn [drop_optional]. apply andb_false_intro2.
  destruct (N.eqb c newline).
  - apply fence_after_three.
  - apply (fence_after_three (c :: s)).
Qed.

Lemma sub_close_fence_cons (c : char) (s : pystr) :
  sub_close_fence (c :: s)
  = if close_fence_at (c :: s) then [] else c :: sub_close_fence s.
Proof. reflexivity. Qed.

(** The second substitution removes a closing fence line and nothing else. *)
Lemma sub_close_fence_line (s : pystr) :
  sub_close_fence (s ++ [newline] ++ lit "```") = s.
Proof.
  induction s as [|c rest IH]; [reflexivity|].
  change ((c :: rest) ++ [newline] ++ lit "```")
    with (c :: (rest ++ [newline] ++ lit "```")).
  rewrite sub_close_fence_cons, (close_fence_at_before c rest).
  now rewrite IH.
Qed.

(** A body between a [```json] line and a closing fence line is recovered,
    without the white space in front of it. *)
Lemma unfence_json_fence (body : pystr) :
  unfence (fenced (lit "json") body) = lstrip_space body.
Proof.
  unfold fenced, unfence.
  change (lit "```" ++ lit "json" ++ [newline] ++ body ++ [newline] ++ lit "```")
    with (lit "```jso" ++ 110%N :: newline
            :: (body ++ [newline] ++ lit "```")).
  change (startswith (lit "```") (lit "```jso" ++ ?x)) with true.
  cbn iota. unfold sub_open_fence.
  change (startswith (lit "```jso") (lit "```jso" ++ ?x)) with true.
  cbn iota.
  change (skipn 6 (lit "```jso" ++ ?x)) with x.
  cbn [drop_optional N.eqb Pos.eqb lstrip_space].
  change (is_space newline) with true. cbn iota.
  rewrite lstrip_space_no_newline, lstrip_space_before_fence.
  destruct (forallb is_space body) eqn:E.
  - now rewrite (lstrip_space_all body E).
  - apply sub_close_fence_line.
Qed.

(** A body between a bare fence line and a closing fence line keeps its
    opening fence: the first substitution asks for [jso] after the three
    backquotes. *)
Lemma unfence_bare_fence (body : pystr) :
  unfence (fenced [] body) = lit "```" ++ [newline] ++ body.
Proof.
  unfold fenced, unfence. cbn [app].
  change (lit "```" ++ [newline] ++ body ++ [newline] ++ lit "```")
    with (lit "```" ++ newline :: (body ++ [newline] ++ lit "```")).
  change (startswith (lit "```") (lit "```" ++ ?x)) with true.
  cbn iota. unfold sub_open_fence.
  change (startswith (lit "```jso") (lit "```" ++ newline :: ?x)) with false.
  cbn iota.
  exact (sub_close_fence_line (lit "```" ++ [newline] ++ body)).
Qed.

(** C5, at a response fenced without a language tag.  The closing fence
    line is removed and the opening one is left, so the text given to the
    decoder is no JSON and the topic gets the fallback, where the body alone
    gives its record. *)
Theorem bare_fence_not_stripped :
  let topic := lit "Gradient Descent" in
  let tags := [lit "optimization"; lit "ml"] in
  (forall body : pystr,
     unfence (fenced [] body) = lit "```" ++ [newline] ++ body) /\
  generate_article_content (world_replying (Ok six_fields_json)) sample_self
    topic tags = article_dict sample_article /\
  generate_article_content
    (world_replying (Ok (fenced (lit "json") six_fields_json))) sample_self
    topic tags = article_dict sample_article /\
  generate_article_content
    (world_replying (Ok (fenced [] six_fields_json))) sample_self
    topic tags = fallback topic.
Proof.
  split; [exact unfence_bare_fence|]. repeat split.
Qed.

(** ** Further properties of the module *)

(** *** The Escaper *)

(** The escaper works piece by piece: escaping a concatenation gives the
    concatenation of the escaped pieces. *)
Theorem escape_sql_string_app (a b : pystr) :
  escape_sql_string (a ++ b) = escape_sql_string a ++ escape_sql_string b.
Proof.
  rewrite !escape_sql_string_doubled. unfold doubled. apply flat_map_app.
Qed.

(** The escaped text is longer than the text by the number of its quotes. *)
Theorem escape_sql_string_length (text : pystr) :
  List.length (escape_sql_string text)
  = List.length text + count_quotes text.
Proof.
  rewrite escape_sql_string_doubled. unfold doubled, count_quotes.
  induction text as [|c rest IH]; [reflexivity|].
  cbn [flat_map count_occ List.length]. rewrite length_app, IH.
  unfold double_quote.
  destruct (N.eqb_spec c quote) as [->|Hne].
  - destruct (N.eq_dec quote quote); [cbn; lia | contradiction].
  - destruct (N.eq_dec c quote); [contradiction | cbn; lia].
Qed.

Lemma read_literal_body_doubled (text rest : pystr) :
  startswith [quote] rest = false ->
  read_literal_body (doubled text ++ quote :: rest) = Some (text, rest).
Proof.
  intros Hrest. induction text as [|c text' IH].
  - cbn [doubled flat_map app read_literal_body].
    rewrite N.eqb_refl. destruct rest as [|c' rest']; [reflexivity|].
    cbn [startswith] in Hrest. rewrite andb_true_r, N.eqb_sym in Hrest.
    now rewrite Hrest.
  - change (doubled (c :: text')) with (double_quote c ++ doubled text').
    unfold double_quote. destruct (N.eqb c quote) eqn:E.
    + apply N.eqb_eq in E as ->.
      cbn [app read_literal_body]. rewrite !N.eqb_refl.
      fold (doubled text' ++ quote :: rest). now rewrite IH.
    + cbn [app read_literal_body]. rewrite E. now rewrite IH.
Qed.

(** An escaped text between quotes is read back, by a reader of SQL string
    literals, as the text itself, and the reader stops at the closing quote:
    whatever the text holds, it cannot end its literal early. *)
Theorem read_sql_literal_escaped (text rest : pystr) :
  startswith [quote] rest = false ->
  read_sql_literal (sql_text (escape_sql_string text) ++ rest)
  = Some (text, rest).
Proof.
  intros Hrest. rewrite escape_sql_string_doubled.
  unfold sql_text.
  change (lit "'") with [quote].
  rewrite <- !app_assoc. cbn [app read_sql_literal].
  rewrite N.eqb_refl. now apply read_literal_body_doubled.
Qed.

Lemma read_sql_literal_escaped_witness :
  read_sql_literal
    (sql_text (escape_sql_string (lit "it's ''quoted''")) ++ lit ", 7")
  = Some (lit "it's ''quoted''", lit ", 7").
Proof.
  exact (read_sql_literal_escaped (lit "it's ''quoted''") (lit ", 7") eq_refl).
Defined.

(** *** Fenced responses, continued *)

Lemma lstrip_space_app (body tail : pystr) :
  lstrip_space (body ++ tail)
  = if forallb is_space body then lstrip_space tail
    else lstrip_space body ++ tail.
Proof.
  induction body as [|c rest IH]; [reflexivity|].
  cbn [app lstrip_space forallb].
  destruct (is_space c); [exact IH | reflexivity].
Qed.

Lemma fence_after_three_spaces (x ws : pystr) :
  forallb is_space (skipn 3 (x ++ [newline] ++ lit "```" ++ ws)) = false.
Proof.
  destruct x as [|a [|b [|c x]]]; try reflexivity.
  cbn [app skipn]. rewrite forallb_app.
  apply andb_false_intro2. reflexivity.
Qed.

Lemma close_fence_at_before_spaces (c : char) (s ws : pystr) :
  close_fence_at (c :: s ++ [newline] ++ lit "```" ++ ws) = false.
Proof.
  unfold close_fence_at. cbn [drop_optional]. apply andb_false_intro2.
  destruct (N.eqb c newline).
  - apply fence_after_three_spaces.
  - apply (fence_after_three_spaces (c :: s)).
Qed.

Lemma close_fence_at_fence (ws : pystr) :
  forallb is_space ws = true ->
  close_fence_at (newline :: (lit "```" ++ ws)) = true /\
  close_fence_at (lit "```" ++ ws) = true.
Proof. intros H. unfold close_fence_at. split; cbn; exact H. Qed.

Lemma sub_close_fence_line_spaces (s ws : pystr) :
  forallb is_space ws = true ->
  sub_close_fence (s ++ [newline] ++ lit "```" ++ ws) = s.
Proof.
  intros Hws. induction s as [|c rest IH].
  - change ([] ++ [newline] ++ lit "```" ++ ws)
      with (newline :: (lit "```" ++ ws)).
    rewrite sub_close_fence_cons.
    now rewrite (proj1 (close_fence_at_fence ws Hws)).
  - change ((c :: rest) ++ [newline] ++ lit "```" ++ ws)
      with (c :: (rest ++ [newline] ++ lit "```" ++ ws)).
    rewrite sub_close_fence_cons, close_fence_at_before_spaces.
    now rewrite IH.
Qed.

(** A body between a [```json] line and a closing fence line, with any
    white space after the closing fence, is recovered without the white
    space in front of it; nothing of the fences is left. *)
Theorem unfence_json_fence_spaces (body ws : pystr) :
  forallb is_space ws = true ->
  unfence (fenced (lit "json") body ++ ws) = lstrip_space body.
Proof.
  intros Hws. unfold fenced, unfence.
  rewrite <- !app_assoc.
  change (lit "```" ++ lit "json" ++ [newline] ++ body ++ [newline]
          ++ lit "```" ++ ws)
    with (lit "```jso" ++ 110%N :: newline
            :: (body ++ [newline] ++ lit "```" ++ ws)).
  change (startswith (lit "```") (lit "```jso" ++ ?x)) with true.
  cbn iota. unfold sub_open_fence.
  change (startswith (lit "```jso") (lit "```jso" ++ ?x)) with true.
  cbn iota.
  change (skipn 6 (lit "```jso" ++ ?x)) with x.
  cbn [drop_optional N.eqb Pos.eqb lstrip_space].
  change (is_space newline) with true. cbn iota.
  rewrite lstrip_space_no_newline, lstrip_space_app.
  destruct (forallb is_space body) eqn:E.
  - rewrite (lstrip_space_all body E).
    change (lstrip_space ([newline] ++ lit "```" ++ ws))
      with (lit "```" ++ ws).
    change (lit "```" ++ ws) with (96%N :: (96%N :: 96%N :: ws)).
    rewrite sub_close_fence_cons.
    change (96%N :: (96%N :: 96%N :: ws)) with (lit "```" ++ ws).
    now rewrite (proj2 (close_fence_at_fence ws Hws)).
  - now apply sub_close_fence_line_spaces.
Qed.

Lemma unfence_json_fence_spaces_witness :
  unfence (fenced (lit "json") ([newline; 32%N] ++ six_fields_json)
           ++ [32%N; newline])
  = six_fields_json.
Proof.
  exact (unfence_json_fence_spaces ([newline; 32%N] ++ six_fields_json)
           [32%N; newline] eq_refl).
Defined.

Lemma drop_optional_suffix (c : char) (s : pystr) :
  exists before, s = before ++ drop_optional c s.
Proof.
  destruct s as [|x rest]; [now exists []|].
  cbn [drop_optional]. destruct (N.eqb x c); [now exists [x] | now exists []].
Qed.

Lemma lstrip_space_suffix (s : pystr) :
  exists before, s = before ++ lstrip_space s.
Proof.
  induction s as [|c rest (before & IH)]; [now exists []|].
  cbn [lstrip_space]. destruct (is_space c); [|now exists []].
  exists (c :: before). cbn [app]. now rewrite <- IH.
Qed.

Lemma sub_open_fence_suffix (s : pystr) :
  exists before, s = before ++ sub_open_fence s.
Proof.
  unfold sub_open_fence.
  destruct (startswith (lit "```jso") s); [|now exists []].
  destruct (drop_optional_suffix 110%N (skipn 6 s)) as (b1 & H1).
  destruct (lstrip_space_suffix (drop_optional 110%N (skipn 6 s)))
    as (b2 & H2).
  destruct (drop_optional_suffix newline
              (lstrip_space (drop_optional 110%N (skipn 6 s))))
    as (b3 & H3).
  exists (firstn 6 s ++ b1 ++ b2 ++ b3).
  rewrite <- !app_assoc, <- H3, <- H2, <- H1. symmetry.
  apply firstn_skipn.
Qed.

Lemma sub_close_fence_prefix (s : pystr) :
  exists after, s = sub_close_fence s ++ after.
Proof.
  induction s as [|c rest (after & IH)].
  - cbn. now exists [].
  - rewrite sub_close_fence_cons.
    destruct (close_fence_at (c :: rest)); [now exists (c :: rest)|].
    exists after. cbn [app]. now rewrite <- IH.
Qed.

(** Whatever the response is, what is given to the decoder is one piece of
    it: something may be cut off at the front and at the end, nothing is
    added and nothing inside is changed. *)
Theorem unfence_piece (response : pystr) :
  exists before after, response = before ++ unfence response ++ after.
Proof.
  unfold unfence.
  destruct (startswith (lit "```") response).
  - destruct (sub_open_fence_suffix response) as (before & Hb).
    destruct (sub_close_fence_prefix (sub_open_fence response))
      as (after & Ha).
    exists before, after. now rewrite <- Ha.
  - exists [], []. now rewrite app_nil_r.
Qed.

(** *** The Content Requester, continued *)

Lemma validate_dict (items : list (pystr * pyobj)) (fields : list pystr) :
  validate fields (PyDict items)
  = match find (fun field => negb (has_key items field)) fields with
    | None => Ok tt
    | Some field => Raise (ValueError (lit "Missing required field: " ++ field))
    end.
Proof.
  induction fields as [|f rest IH]; [reflexivity|].
  cbn [validate py_in bind find]. unfold has_key at 1.
  destruct (dict_lookup items f); [exact IH | reflexivity].
Qed.

(** When the response decodes to a dictionary, the body of the [try]
    returns it if it has the six keys, and otherwise raises a ValueError
    that names the first required field, in the order title, content,
    excerpt, summary, summary_title, reading_time, that is missing; the
    article is then the fallback. *)
Theorem dictionary_response (W : world) (self : ArticleGenerator)
    (topic : pystr) (tags : list pystr) (response : pystr)
    (items : list (pystr * pyobj)) :
  get_llm_output W (prompt topic tags) (model_name self) = Ok response ->
  json_loads W (unfence response) = Ok (PyDict items) ->
  try_generate W self topic tags
  = match first_missing items with
    | None => Ok (PyDict items)
    | Some field => Raise (ValueError (lit "Missing required field: " ++ field))
    end
  /\ generate_article_content W self topic tags
     = match first_missing items with
       | None => PyDict items
       | Some _ => fallback topic
       end.
Proof.
  intros Hllm Hjson.
  assert (Htry : try_generate W self topic tags
                 = match first_missing items with
                   | None => Ok (PyDict items)
                   | Some field =>
                       Raise (ValueError (lit "Missing required field: " ++ field))
                   end).
  { unfold try_generate. rewrite Hllm. cbn [bind]. rewrite Hjson. cbn [bind].
    rewrite validate_dict. fold (first_missing items).
    now destruct (first_missing items). }
  split; [exact Htry|].
  unfold generate_article_content. rewrite Htry.
  now destruct (first_missing items).
Qed.

Lemma dictionary_response_witness :
  let W := world_decoding (Ok (lit "{}")) (PyDict minimal_items) in
  try_generate W sample_self (lit "Gradient Descent") []
  = Raise (ValueError (lit "Missing required field: excerpt"))
  /\ generate_article_content W sample_self (lit "Gradient Descent") []
     = fallback (lit "Gradient Descent").
Proof.
  exact (dictionary_response
           (world_decoding (Ok (lit "{}")) (PyDict minimal_items))
           sample_self (lit "Gradient Descent") [] (lit "{}") minimal_items
           eq_refl eq_refl).
Defined.

(** When the response decodes to a number, a boolean or null, the
    membership test of the validation loop raises TypeError; the handler
    catches it and the article is the fallback. *)
Theorem scalar_response (W : world) (self : ArticleGenerator)
    (topic : pystr) (tags : list pystr) (response : pystr) (v : pyobj) :
  get_llm_output W (prompt topic tags) (model_name self) = Ok response ->
  json_loads W (unfence response) = Ok v ->
  scalar v = true ->
  try_generate W self topic tags = Raise TypeError /\
  generate_article_content W self topic tags = fallback topic.
Proof.
  intros Hllm Hjson Hv.
  assert (Htry : try_generate W self topic tags = Raise TypeError).
  { unfold try_generate. rewrite Hllm. cbn [bind]. rewrite Hjson.
    destruct v; try discriminate; reflexivity. }
  split; [exact Htry|]. unfold generate_article_content. now rewrite Htry.
Qed.

Lemma scalar_response_witness :
  let W := world_decoding (Ok (lit "7")) (PyInt 7) in
  try_generate W sample_self (lit "Gradient Descent") [] = Raise TypeError /\
  generate_article_content W sample_self (lit "Gradient Descent") []
  = fallback (lit "Gradient Descent").
Proof.
  exact (scalar_response (world_decoding (Ok (lit "7")) (PyInt 7))
           sample_self (lit "Gradient Descent") [] (lit "7") (PyInt 7)
           eq_refl eq_refl eq_refl).
Defined.

Lemma contains_fields_validated (v : pyobj) :
  validate required_fields v = Ok tt -> contains_fields v = true.
Proof.
  intros Hv. unfold contains_fields. apply forallb_forall. intros f Hin.
  now rewrite (validate_ok required_fields v Hv f Hin).
Qed.

(** What [generate_article_content] guarantees about its result, on every
    path and for every collaborator and decoder: each of the six field
    names is [in] it.  For a dictionary that means the six keys; it does
    not make the result a dictionary. *)
Theorem generate_article_content_contains_fields (W : world)
    (self : ArticleGenerator) (topic : pystr) (tags : list pystr) :
  contains_fields (generate_article_content W self topic tags) = true.
Proof.
  destruct (generate_article_content_cases W self topic tags)
    as [(e & _ & ->) | Hok]; [reflexivity|].
  apply try_generate_ok in Hok as (response & _ & _ & Hv).
  now apply contains_fields_validated.
Qed.

(** *** The Row Builder, continued *)

Ltac row_step k :=
  destruct (dict_lookup _ k) as [[]|];
  cbn [bind call_escape succeeds andb];
  rewrite ?andb_false_r; try reflexivity.

Lemma build_row_succeeds (W : world) (v : pyobj) (featured_image : pystr)
    (tags : list pystr) (is_premium : bool) (views : Z) (created_by : pystr) :
  succeeds (build_row W v featured_image tags is_premium views created_by)
  = usable_record v.
Proof.
  destruct v as [| | | | |elems|items]; try reflexivity.
  unfold build_row, usable_record, typed_record, text_fields, has_key.
  cbn [forallb py_getitem py_get bind].
  row_step (lit "title"). all: row_step (lit "content").
  all: row_step (lit "excerpt"). all: row_step (lit "summary").
  all: row_step (lit "summary_title").
Qed.

Lemma get_featured_image_image_of (W : world) (topic : pystr) :
  get_featured_image W topic = Ok (image_of W topic).
Proof.
  destruct (list_index_in_range default_images _
              (image_index_in_range W topic)) as (url & Hurl & Hnth & _).
  unfold get_featured_image, image_of. rewrite Hurl. f_equal. symmetry.
  now apply nth_error_nth.
Qed.

Lemma generate_sql_insert_succeeds (W : world) (self : ArticleGenerator)
    (topic : pystr) (tags : list pystr) (is_premium : bool) (views : Z)
    (created_by : pystr) :
  succeeds (generate_sql_insert W self topic tags is_premium views created_by)
  = usable_record (generate_article_content W self topic tags).
Proof.
  unfold generate_sql_insert. rewrite get_featured_image_image_of.
  cbn [bind]. apply build_row_succeeds.
Qed.

(** The Row Builder returns a row exactly for a dictionary that has the
    title and the content and whose text fields, where present, are strings;
    on a list, a string, a number, or a dictionary with a text field of
    another type it raises.  As the image lookup cannot fail, the same
    decides whether [generate_sql_insert] returns. *)
Theorem row_succeeds_iff_usable (W : world) (self : ArticleGenerator)
    (topic : pystr) (tags : list pystr) (is_premium : bool) (views : Z)
    (created_by : pystr) :
  (forall (v : pyobj) (featured_image : pystr),
     succeeds (build_row W v featured_image tags is_premium views created_by)
     = usable_record v) /\
  succeeds (generate_sql_insert W self topic tags is_premium views created_by)
  = usable_record (generate_article_content W self topic tags).
Proof.
  split.
  - intros v img. apply build_row_succeeds.
  - apply generate_sql_insert_succeeds.
Qed.

(** The reading time is not checked to be a number: when the record holds a
    text there, the text is copied into the row as it is, without quotes
    and without escaping. *)
Theorem build_row_text_reading_time (W : world)
    (items : list (pystr * pyobj)) (featured_image : pystr)
    (tags : list pystr) (is_premium : bool) (views : Z) (created_by : pystr)
    (time : pystr) :
  usable_record (PyDict items) = true ->
  dict_lookup items (lit "reading_time") = Some (PyStr time) ->
  build_row W (PyDict items) featured_image tags is_premium views created_by
  = Ok (sql_tuple
          [ text_literal items (lit "title");
            text_literal items (lit "content");
            text_literal items (lit "excerpt");
            text_literal items (lit "summary");
            text_literal items (lit "summary_title");
            sql_text featured_image;
            time;
            sql_array (map sql_text tags);
            sql_bool is_premium;
            decimal views;
            sql_text created_by ]).
Proof.
  unfold usable_record.
  intros [[Ht Htitle]%andb_prop Hcontent]%andb_prop Htime.
  rewrite build_row_typed by assumption.
  unfold record_row_values, reading_time_literal. now rewrite Htime.
Qed.

Lemma build_row_text_reading_time_witness :
  build_row (world_replying (Raise TypeError)) (PyDict text_time_items)
    (lit "u") [] false 0 (lit "me")
  = Ok (sql_tuple
          [ lit "'T'"; lit "'C'"; lit "''"; lit "''"; lit "''"; lit "'u'";
            lit "7 minutes"; lit "ARRAY[]"; lit "false"; lit "0";
            lit "'me'" ]).
Proof.
  exact (build_row_text_reading_time (world_replying (Raise TypeError))
           text_time_items (lit "u") [] false 0 (lit "me") (lit "7 minutes")
           eq_refl eq_refl).
Defined.

(** The image is put between quotes without escaping (line 192).  That is
    harmless: the lookup always returns the URL of the pool at the index of
    the topic, and no URL of the pool holds a quote, so escaping it would
    change nothing. *)
Theorem featured_image_without_quote (W : world) (topic : pystr) :
  get_featured_image W topic = Ok (image_of W topic) /\
  count_quotes (image_of W topic) = 0 /\
  escape_sql_string (image_of W topic) = image_of W topic.
Proof.
  split; [apply get_featured_image_image_of|].
  destruct (list_index_in_range default_images _
              (image_index_in_range W topic)) as (url & _ & Hnth & Hin).
  assert (image_of W topic = url) as ->
    by (unfold image_of; now apply nth_error_nth).
  unfold default_images in Hin. cbn [In] in Hin.
  destruct Hin as [<-|[<-|[<-|[<-|[<-|[]]]]]]; split; reflexivity.
Qed.

Lemma generate_sql_insert_fallback (W : world) (self : ArticleGenerator)
    (topic : pystr) (tags : list pystr) (is_premium : bool) (views : Z)
    (created_by : pystr) (e : exn) :
  try_generate W self topic tags = Raise e ->
  generate_sql_insert W self topic tags is_premium views created_by
  = Ok (sql_tuple
          (row_values (fallback_article topic) (image_of W topic) tags
             is_premium views created_by)).
Proof.
  intros Htry. unfold generate_sql_insert, generate_article_content.
  rewrite Htry, get_featured_image_image_of. cbn [bind].
  change (fallback topic) with (PyDict (items_of (fallback_article topic))).
  now rewrite build_row_typed.
Qed.

(** When the Content Requester fails for a topic, [generate_sql_insert]
    still returns: the row of the fallback record, with its texts escaped,
    whatever the topic holds. *)
Theorem generate_sql_insert_on_failure (W : world) (self : ArticleGenerator)
    (topic : pystr) (tags : list pystr) (is_premium : bool) (views : Z)
    (created_by : pystr) (e : exn) :
  try_generate W self topic tags = Raise e ->
  generate_sql_insert W self topic tags is_premium views created_by
  = Ok (sql_tuple
          [ sql_text (escape_sql_string
              (lit "Understanding " ++ topic ++ lit ": A Comprehensive Guide"));
            sql_text (escape_sql_string
              (lit "<p>This is a comprehensive guide about " ++ topic
               ++ lit ".</p>"));
            sql_text (escape_sql_string
              (lit "Learn about " ++ topic ++ lit " in machine learning."));
            sql_text (escape_sql_string
              (str_mul
                 (topic ++ lit " is an important concept in machine learning. ")
                 10));
            sql_text (escape_sql_string (firstn 30 topic));
            sql_text (image_of W topic);
            lit "10";
            sql_array (map sql_text tags);
            sql_bool is_premium;
            decimal views;
            sql_text created_by ]).
Proof. intros Htry. now rewrite (generate_sql_insert_fallback _ _ _ _ _ _ _ _ Htry). Qed.

Lemma generate_sql_insert_on_failure_witness :
  generate_sql_insert (world_replying (Raise (RuntimeError (lit "timeout"))))
    sample_self (lit "Adam's rule") [lit "ml"] false 3 (lit "me")
  = Ok (join [newline]
          [ lit "  (";
            lit "    'Understanding Adam''s rule: A Comprehensive Guide',";
            lit "    '<p>This is a comprehensive guide about Adam''s rule.</p>',";
            lit "    'Learn about Adam''s rule in machine learning.',";
            lit "    '" ++ str_mul (lit "Adam''s rule is an important concept in machine learning. ") 10 ++ lit "',";
            lit "    'Adam''s rule',";
            lit "    'https://images.pexels.com/photos/7516366/pexels-photo-7516366.jpeg',";
            lit "    10,";
            lit "    ARRAY['ml'],";
            lit "    false,";
            lit "    3,";
            lit "    'me'";
            lit "  )" ]).
Proof.
  exact (generate_sql_insert_on_failure
           (world_replying (Raise (RuntimeError (lit "timeout"))))
           sample_self (lit "Adam's rule") [lit "ml"] false 3 (lit "me")
           (RuntimeError (lit "timeout")) eq_refl).
Defined.

(** *** The Batch Orchestrator, continued *)

Lemma batch_inserts_step (W : world) (self : ArticleGenerator)
    (t : topic_request) (rest : list topic_request) (created_by : pystr) :
  batch_inserts W self (t :: rest) created_by
  = bind (topic_insert W self created_by t)
      (fun insert =>
         bind (batch_inserts W self rest created_by)
           (fun inserts => Ok (insert :: inserts))).
Proof. reflexivity. Qed.

Lemma batch_inserts_app (W : world) (self : ArticleGenerator)
    (first second : list topic_request) (created_by : pystr) :
  batch_inserts W self (first ++ second) created_by
  = bind (batch_inserts W self first created_by)
      (fun rows1 =>
         bind (batch_inserts W self second created_by)
           (fun rows2 => Ok (rows1 ++ rows2))).
Proof.
  induction first as [|t rest IH].
  - cbn [app batch_inserts bind].
    now destruct (batch_inserts W self second created_by).
  - change ((t :: rest) ++ second) with (t :: (rest ++ second)).
    rewrite !batch_inserts_step, IH.
    destruct (topic_insert W self created_by t) as [row|]; [|reflexivity].
    cbn [bind].
    destruct (batch_inserts W self rest created_by) as [rows1|];
      [|reflexivity].
    cbn [bind].
    now destruct (batch_inserts W self second created_by).
Qed.

Lemma batch_inserts_succeeds (W : world) (self : ArticleGenerator)
    (topics : list topic_request) (created_by : pystr) :
  succeeds (batch_inserts W self topics created_by)
  = forallb (fun t => succeeds (topic_insert W self created_by t)) topics.
Proof.
  induction topics as [|t rest IH]; [reflexivity|].
  rewrite batch_inserts_step. cbn [forallb]. rewrite <- IH.
  destruct (topic_insert W self created_by t); [|reflexivity].
  cbn [bind succeeds andb].
  now destruct (batch_inserts W self rest created_by).
Qed.

Lemma batch_inserts_raise (W : world) (self : ArticleGenerator)
    (before : list topic_request) (t : topic_request)
    (after : list topic_request) (created_by : pystr) (e : exn) :
  forallb (fun t' => succeeds (topic_insert W self created_by t')) before
  = true ->
  topic_insert W self created_by t = Raise e ->
  batch_inserts W self (before ++ t :: after) created_by = Raise e.
Proof.
  intros Hbefore Ht. rewrite batch_inserts_app.
  rewrite <- batch_inserts_succeeds in Hbefore.
  destruct (batch_inserts W self before created_by); [|discriminate].
  cbn [bind]. rewrite batch_inserts_step, Ht. reflexivity.
Qed.

Lemma batch_inserts_raised (W : world) (self : ArticleGenerator)
    (topics : list topic_request) (created_by : pystr) (e : exn) :
  batch_inserts W self topics created_by = Raise e ->
  exists before t after,
    topics = before ++ t :: after /\
    forallb (fun t' => succeeds (topic_insert W self created_by t')) before
    = true /\
    topic_insert W self created_by t = Raise e.
Proof.
  induction topics as [|t rest IH]; [discriminate|].
  rewrite batch_inserts_step.
  destruct (topic_insert W self created_by t) as [row|e'] eqn:Et.
  - cbn [bind].
    destruct (batch_inserts W self rest created_by) as [rows|e''];
      [discriminate|].
    cbn [bind]. intros [= ->].
    destruct (IH eq_refl) as (before & t' & after & -> & Hb & Ht').
    exists (t :: before), t', after. repeat split; [|assumption].
    cbn [forallb]. now rewrite Et.
  - cbn [bind]. intros [= ->]. now exists [], t, rest.
Qed.

(** A statement that the batch returns is the header, one row per topic,
    each the row of [generate_sql_insert] for the topic at the same place
    (with [] for missing tags, false for a missing premium flag and 0 for
    missing views), joined by comma-newline, and the semicolon. *)
Theorem generate_batch_sql_rows (W : world) (self : ArticleGenerator)
    (topics : list topic_request) (created_by : pystr) (sql : pystr) :
  generate_batch_sql W self topics created_by = Ok sql ->
  exists rows,
    Forall2 (fun t row => topic_insert W self created_by t = Ok row)
      topics rows /\
    List.length rows = List.length topics /\
    sql = sql_statement rows.
Proof.
  intros (rows & Hrows & Hlen & ->)%generate_batch_sql_statement.
  exists rows. repeat split; [|assumption].
  now apply batch_inserts_rows.
Qed.

Lemma generate_batch_sql_rows_witness :
  let W := world_replying (Raise (RuntimeError (lit "timeout"))) in
  exists rows,
    Forall2 (fun t row => topic_insert W sample_self (lit "me") t = Ok row)
      [bare_topic] rows /\
    List.length rows = 1 /\
    sql_statement [fallback_row W (lit "me") bare_topic] = sql_statement rows.
Proof.
  exact (generate_batch_sql_rows
           (world_replying (Raise (RuntimeError (lit "timeout"))))
           sample_self [bare_topic] (lit "me")
           (sql_statement
              [fallback_row
                 (world_replying (Raise (RuntimeError (lit "timeout"))))
                 (lit "me") bare_topic])
           eq_refl).
Defined.

(** The batch returns a statement exactly when the record of every topic is
    usable by the Row Builder; one record that is not makes the whole call
    raise. *)
Theorem generate_batch_sql_succeeds_iff (W : world) (self : ArticleGenerator)
    (topics : list topic_request) (created_by : pystr) :
  succeeds (generate_batch_sql W self topics created_by)
  = forallb (fun t => usable_record (topic_record W self t)) topics.
Proof.
  unfold generate_batch_sql.
  transitivity (succeeds (batch_inserts W self topics created_by)).
  - now destruct (batch_inserts W self topics created_by).
  - rewrite batch_inserts_succeeds.
    induction topics as [|t rest IH]; [reflexivity|].
    cbn [forallb]. rewrite IH. f_equal.
    apply generate_sql_insert_succeeds.
Qed.

(** The batch is all or nothing.  It raises exactly when some topic's row
    raises, and then with the exception of the first such topic: the rows
    built before it are dropped and the topics after it are not looked at. *)
Theorem generate_batch_sql_first_failure (W : world) (self : ArticleGenerator)
    (topics : list topic_request) (created_by : pystr) (e : exn) :
  generate_batch_sql W self topics created_by = Raise e <->
  exists before t after,
    topics = before ++ t :: after /\
    forallb (fun t' => succeeds (topic_insert W self created_by t')) before
    = true /\
    topic_insert W self created_by t = Raise e.
Proof.
  unfold generate_batch_sql. split.
  - intros H. apply batch_inserts_raised.
    destruct (batch_inserts W self topics created_by) as [rows|e'];
      [discriminate|].
    cbn [bind] in H. now injection H as ->.
  - intros (before & t & after & -> & Hb & Ht).
    now rewrite (batch_inserts_raise W self before t after created_by e Hb Ht).
Qed.

Lemma generate_batch_sql_first_failure_witness :
  generate_batch_sql (world_replying (Ok null_title_json)) sample_self
    ([] ++ sample_topic :: [bare_topic]) sample_creator
  = Raise AttributeError.
Proof.
  apply (proj2 (generate_batch_sql_first_failure
                  (world_replying (Ok null_title_json)) sample_self
                  ([] ++ sample_topic :: [bare_topic]) sample_creator
                  AttributeError)).
  exists [], sample_topic, [bare_topic]. repeat split.
Defined.

(** The rows of two topic lists, one after the other, are the rows of the
    first followed by the rows of the second; the loop keeps nothing from
    one topic to the next. *)
Theorem batch_inserts_concat (W : world) (self : ArticleGenerator)
    (first second : list topic_request) (created_by : pystr)
    (rows1 rows2 : list pystr) :
  batch_inserts W self first created_by = Ok rows1 ->
  batch_inserts W self second created_by = Ok rows2 ->
  generate_batch_sql W self (first ++ second) created_by
  = Ok (sql_statement (rows1 ++ rows2)).
Proof.
  intros H1 H2. unfold generate_batch_sql.
  now rewrite batch_inserts_app, H1, H2.
Qed.

Lemma batch_inserts_concat_witness :
  let W := world_replying (Raise (RuntimeError (lit "timeout"))) in
  generate_batch_sql W sample_self ([bare_topic] ++ [sample_topic]) (lit "me")
  = Ok (sql_statement
          ([fallback_row W (lit "me") bare_topic]
           ++ [fallback_row W (lit "me") sample_topic])).
Proof.
  exact (batch_inserts_concat
           (world_replying (Raise (RuntimeError (lit "timeout"))))
           sample_self [bare_topic] [sample_topic] (lit "me")
           [fallback_row
              (world_replying (Raise (RuntimeError (lit "timeout"))))
              (lit "me") bare_topic]
           [fallback_row
              (world_replying (Raise (RuntimeError (lit "timeout"))))
              (lit "me") sample_topic]
           eq_refl eq_refl).
Defined.

(** When every call of the collaborator raises, the batch returns the
    statement of the fallback rows, one per topic and in their order. *)
Theorem generate_batch_sql_all_fallback (W : world) (self : ArticleGenerator)
    (topics : list topic_request) (created_by : pystr) :
  (forall prompt_text model,
     succeeds (get_llm_output W prompt_text model) = false) ->
  generate_batch_sql W self topics created_by
  = Ok (sql_statement (map (fallback_row W created_by) topics)).
Proof.
  intros Hfail. unfold generate_batch_sql.
  assert (batch_inserts W self topics created_by
          = Ok (map (fallback_row W created_by) topics)) as ->;
    [|reflexivity].
  induction topics as [|t rest IH]; [reflexivity|].
  rewrite batch_inserts_step, IH. unfold topic_insert.
  assert (exists e, try_generate W self (name t) (get_or (tags t) [])
                    = Raise e) as (e & He).
  { unfold try_generate.
    specialize (Hfail (prompt (name t) (get_or (tags t) []))
                  (model_name self)).
    destruct (get_llm_output W _ _) as [|e]; [discriminate | now exists e]. }
  now rewrite (generate_sql_insert_fallback _ _ _ _ _ _ _ _ He).
Qed.

Lemma generate_batch_sql_all_fallback_witness :
  let W := world_replying (Raise (RuntimeError (lit "timeout"))) in
  generate_batch_sql W sample_self [sample_topic; bare_topic] sample_creator
  = Ok (sql_statement
          [ fallback_row W sample_creator sample_topic;
            fallback_row W sample_creator bare_topic ]).
Proof.
  exact (generate_batch_sql_all_fallback
           (world_replying (Raise (RuntimeError (lit "timeout"))))
           sample_self [sample_topic; bare_topic] sample_creator
           (fun _ _ => eq_refl)).
Defined.
